(** * Microsoft Entra validation CLI: a shallow embedding of entra_test_cli.py

    The development follows the layout of the Python module:
    - Python values used by the program (strings as code points, byte
      strings, exceptions as a result type);
    - the library functions the program calls whose results the properties
      depend on (str.strip, base64, SHA-256, urllib.parse);
    - the helpers of the module ([_resolve_public_client],
      [_generate_code_verifier], [_code_challenge], [_extract_code],
      [_tenant_from_discovery_url], [_load_env_defaults]);
    - the [report] subcommand ([handle_report] with its seven steps), over
      an explicit model of the network, the terminal and the random source;
    - test doubles after the repository's tests;
    - the properties.

    A call of the program ends by returning, by raising an exception that
    derives from [Exception], or with an exception that derives from
    [BaseException] only ([KeyboardInterrupt], [SystemExit]), which
    [run_step] does not catch.  [print] may raise; a [KeyboardInterrupt]
    is modelled where the program waits for the user, at [input]. *)

From stdpp Require Import base gmap strings list.
From Stdlib Require Import NArith ZArith Strings.Byte Ascii String List Lia Bool.
From Stdlib Require Import DecimalString.
Import ListNotations.

(** ** Python strings and exceptions *)

(** A Python [str] is a sequence of Unicode code points. *)
Definition pystr := list N.

(** String literals of the source are written [lit "..."]. *)
Definition lit (s : string) : pystr := map N_of_ascii (list_ascii_of_string s).
Definition chr (c : ascii) : N := N_of_ascii c.

(** [bool(s)] for a string, and for [str | None]. *)
Definition truthy (s : pystr) : bool :=
  match s with [] => false | _ :: _ => true end.
Definition truthy_opt (o : option pystr) : bool :=
  match o with Some s => truthy s | None => false end.

(** [a or b] where [a : str | None]. *)
Definition or_else (a : option pystr) (b : pystr) : pystr :=
  if truthy_opt a then default [] a else b.

Definition pystr_eqb (a b : pystr) : bool := bool_decide (a = b).

(** [s.isascii()]. *)
Definition isascii (s : pystr) : bool := forallb (fun c => (c <? 128)%N) s.

(** [c in s] for a one-character [c]. *)
Definition contains (c : N) (s : pystr) : bool := existsb (N.eqb c) s.

(** [str.isspace] on one code point: the table of CPython's
    [_PyUnicode_IsWhitespace], which [str.strip()] uses. *)
Definition isspace (c : N) : bool :=
  ((9 <=? c) && (c <=? 13) || (28 <=? c) && (c <=? 32)
   || (c =? 0x85) || (c =? 0xA0) || (c =? 0x1680)
   || (0x2000 <=? c) && (c <=? 0x200A)
   || (c =? 0x2028) || (c =? 0x2029) || (c =? 0x202F)
   || (c =? 0x205F) || (c =? 0x3000))%N.

Fixpoint lstrip_by (p : N -> bool) (s : pystr) : pystr :=
  match s with
  | [] => []
  | c :: s' => if p c then lstrip_by p s' else s
  end.

Fixpoint rstrip_by (p : N -> bool) (s : pystr) : pystr :=
  match s with
  | [] => []
  | c :: s' =>
      match rstrip_by p s' with
      | [] => if p c then [] else [c]
      | r => c :: r
      end
  end.

(** [s.strip()] and [s.rstrip(chars)]. *)
Definition strip (s : pystr) : pystr := rstrip_by isspace (lstrip_by isspace s).
Definition rstrip_chars (chars s : pystr) : pystr :=
  rstrip_by (fun c => contains c chars) s.

(** [s.split(c)] for a one-character separator: never empty. *)
Fixpoint split_on (c : N) (s : pystr) : list pystr :=
  match s with
  | [] => [[]]
  | x :: s' =>
      if (x =? c)%N then [] :: split_on c s'
      else match split_on c s' with
           | h :: t => (x :: h) :: t
           | [] => [[x]]
           end
  end.

(** [s.split(c, 1)] when [c in s]: the text before and after the first [c]. *)
Fixpoint split_once (c : N) (s : pystr) : option (pystr * pystr) :=
  match s with
  | [] => None
  | x :: s' =>
      if (x =? c)%N then Some ([], s')
      else match split_once c s' with
           | Some (a, b) => Some (x :: a, b)
           | None => None
           end
  end.

(** [s.replace(c, "")]. *)
Definition remove_char (c : N) (s : pystr) : pystr :=
  filter (fun x => negb (x =? c)%N) s.

(** [sep.join(parts)]. *)
Fixpoint join (sep : pystr) (parts : list pystr) : pystr :=
  match parts with
  | [] => []
  | [p] => p
  | p :: ps => p ++ sep ++ join sep ps
  end.

(** [needle in s] for strings. *)
Fixpoint starts_with (needle s : pystr) : bool :=
  match needle, s with
  | [], _ => true
  | _ :: _, [] => false
  | a :: needle', b :: s' => (a =? b)%N && starts_with needle' s'
  end.

Fixpoint substring_in (needle s : pystr) : bool :=
  starts_with needle s ||
  match s with
  | [] => false
  | _ :: s' => substring_in needle s'
  end.

(** [str(n)] for a non-negative integer. *)
Definition decimal (n : N) : pystr :=
  lit (DecimalString.NilZero.string_of_uint (N.to_uint n)).

(** Exceptions the program raises or lets through.  [SkipStep] is the
    module's own class; every constructor is a subclass of [Exception]. *)
Inductive exn : Type :=
| SkipStep (msg : pystr)
| RuntimeError (msg : pystr)
| ValueError (msg : pystr)
| UnicodeError (msg : pystr)
| AttributeError (msg : pystr)
| TypeError (msg : pystr)
| OtherError (cls : string) (msg : pystr).

(** [str(exc)]. *)
Definition exn_text (e : exn) : pystr :=
  match e with
  | SkipStep m | RuntimeError m | ValueError m | UnicodeError m
  | AttributeError m | TypeError m | OtherError _ m => m
  end.

(** A computation that returns or raises. *)
Inductive result (A : Type) : Type :=
| Return (a : A)
| Raise (e : exn).
Arguments Return {A} a.
Arguments Raise {A} e.

Definition bind {A B : Type} (r : result A) (k : A -> result B) : result B :=
  match r with
  | Return a => k a
  | Raise e => Raise e
  end.

Declare Scope py_scope.
Delimit Scope py_scope with py.
Notation "'let*' x ':=' r 'in' k" := (bind r (fun x => k))
  (at level 10, x pattern, r at level 100, k at level 200) : py_scope.
Local Open Scope py_scope.

(** *** The text of a codec error

    [str(exc)] for the [UnicodeEncodeError] or [UnicodeDecodeError] that a
    strict codec raises: it names the first run of characters that cannot
    be converted, one character by its escape, a longer run by its
    bounds. *)

Definition hex_lower (d : N) : N := nth (N.to_nat d) (lit "0123456789abcdef") 0%N.

(** [format(x, "x")] filled with zeros to [width] digits. *)
Fixpoint hex_fixed (width : nat) (x : N) : pystr :=
  match width with
  | O => []
  | S w => hex_fixed w (x / 16)%N ++ [hex_lower (x mod 16)%N]
  end.

Definition escape_char (c : N) : pystr :=
  if (c <=? 0xff)%N then lit "\x" ++ hex_fixed 2 c
  else if (c <=? 0xffff)%N then lit "\u" ++ hex_fixed 4 c
  else lit "\U" ++ hex_fixed 8 c.

(** The length of the run of [bad] characters at the head of [s]. *)
Fixpoint run_length (bad : N -> bool) (s : pystr) : nat :=
  match s with
  | c :: s' => if bad c then S (run_length bad s') else O
  | [] => O
  end.

(** The first [bad] character of [s], counting from [pos]: its position,
    the position after its run, and the character. *)
Fixpoint first_run (bad : N -> bool) (pos : nat) (s : pystr)
  : option (nat * nat * N) :=
  match s with
  | [] => None
  | c :: s' =>
      if bad c then Some (pos, S pos + run_length bad s', c)%nat
      else first_run bad (S pos) s'
  end.

Definition encode_error_text (codec reason : pystr) (bad : N -> bool)
    (s : pystr) : pystr :=
  match first_run bad 0 s with
  | Some (start, stop, c) =>
      if (stop =? S start)%nat then
        lit "'" ++ codec ++ lit "' codec can't encode character '"
        ++ escape_char c ++ lit "' in position " ++ decimal (N.of_nat start)
        ++ lit ": " ++ reason
      else
        lit "'" ++ codec ++ lit "' codec can't encode characters in position "
        ++ decimal (N.of_nat start) ++ lit "-" ++ decimal (N.of_nat (stop - 1))
        ++ lit ": " ++ reason
  | None => []
  end.

(** The ASCII decoder reports one byte at a time. *)
Definition decode_error_text (codec reason : pystr) (bad : N -> bool)
    (bs : list N) : pystr :=
  match first_run bad 0 bs with
  | Some (start, _, b) =>
      lit "'" ++ codec ++ lit "' codec can't decode byte 0x" ++ hex_fixed 2 b
      ++ lit " in position " ++ decimal (N.of_nat start) ++ lit ": " ++ reason
  | None => []
  end.

(** ** Byte strings *)

Definition bytes := list byte.

Definition byte_of_N (n : N) : byte :=
  match Byte.of_N (n mod 256) with
  | Some b => b
  | None => x00
  end.

(** [bs.decode("ascii")] and [s.encode("ascii")]: every character below
    128 or, in Python, a [UnicodeDecodeError] or [UnicodeEncodeError]. *)
Definition decode_ascii (bs : bytes) : result pystr :=
  let text := map Byte.to_N bs in
  if isascii text then Return text
  else Raise (UnicodeError
                (decode_error_text (lit "ascii") (lit "ordinal not in range(128)")
                                   (fun b => negb (b <? 128)%N) text)).

Definition encode_ascii (s : pystr) : result bytes :=
  if isascii s then Return (map byte_of_N s)
  else Raise (UnicodeError
                (encode_error_text (lit "ascii") (lit "ordinal not in range(128)")
                                   (fun c => negb (c <? 128)%N) s)).

(** ** base64 (RFC 4648), as [base64.b64encode] and [urlsafe_b64encode] *)

Module Base64.
Local Open Scope N_scope.

Definition std_alphabet : bytes :=
  list_byte_of_string
    "ABCDEFGHIJKLMNOPQRSTUVWXYZabcdefghijklmnopqrstuvwxyz0123456789+/".

Definition pad_byte : byte := "="%byte.

(** Three bytes make a 24-bit quantum; [sextet t k] is its 6-bit group
    that starts at bit [k]. *)
Definition quantum (a b c : byte) : N :=
  Byte.to_N a * 2 ^ 16 + Byte.to_N b * 2 ^ 8 + Byte.to_N c.

Definition sextet (t k : N) : N := (t / 2 ^ k) mod 64.

Definition enc (alphabet : bytes) (t k : N) : byte :=
  nth (N.to_nat (sextet t k)) alphabet pad_byte.

(** [binascii.b2a_base64(s, newline=False)]: three input bytes give four
    output characters; a final group of one or two bytes is padded with
    [=] to four characters. *)
Fixpoint b64encode (s : bytes) : bytes :=
  match s with
  | [] => []
  | [a] =>
      let t := quantum a x00 x00 in
      [enc std_alphabet t 18; enc std_alphabet t 12; pad_byte; pad_byte]
  | [a; b] =>
      let t := quantum a b x00 in
      [enc std_alphabet t 18; enc std_alphabet t 12; enc std_alphabet t 6;
       pad_byte]
  | a :: b :: c :: rest =>
      let t := quantum a b c in
      [enc std_alphabet t 18; enc std_alphabet t 12; enc std_alphabet t 6;
       enc std_alphabet t 0] ++ b64encode rest
  end.

(** [bytes.maketrans(b'+/', b'-_')]. *)
Definition urlsafe_translate (b : byte) : byte :=
  if Byte.eqb b "+"%byte then "-"%byte
  else if Byte.eqb b "/"%byte then "_"%byte
  else b.

Definition urlsafe_b64encode (s : bytes) : bytes :=
  map urlsafe_translate (b64encode s).
End Base64.

(** ** SHA-256 (FIPS 180-4), as [hashlib.sha256(m).digest()] *)

Module SHA256.
Local Open Scope N_scope.

(** 32-bit words are [N] values below [2^32]; each operation writes its
    wrap-around out. *)
Definition w32 (x : N) : N := x mod 2 ^ 32.
Definition add32 (x y : N) : N := w32 (x + y).
Definition rotr (n x : N) : N :=
  N.lor (N.shiftr x n) (w32 (N.shiftl x (32 - n))).
Definition shr (n x : N) : N := N.shiftr x n.
Definition not32 (x : N) : N := N.lxor x (2 ^ 32 - 1).

Definition Ch (x y z : N) : N := N.lxor (N.land x y) (N.land (not32 x) z).
Definition Maj (x y z : N) : N :=
  N.lxor (N.lxor (N.land x y) (N.land x z)) (N.land y z).
Definition Sigma0 (x : N) : N := N.lxor (N.lxor (rotr 2 x) (rotr 13 x)) (rotr 22 x).
Definition Sigma1 (x : N) : N := N.lxor (N.lxor (rotr 6 x) (rotr 11 x)) (rotr 25 x).
Definition sigma0 (x : N) : N := N.lxor (N.lxor (rotr 7 x) (rotr 18 x)) (shr 3 x).
Definition sigma1 (x : N) : N := N.lxor (N.lxor (rotr 17 x) (rotr 19 x)) (shr 10 x).

(** The constants are derived the way the standard defines them: the
    first 32 bits of the fractional parts of the cube roots (round
    constants) and square roots (initial hash value) of the first primes. *)
Definition is_prime (n : nat) : bool :=
  (1 <? n)%nat && forallb (fun d => negb (n mod d =? 0)%nat) (seq 2 (n - 2)).
Definition primes64 : list N :=
  map N.of_nat (filter is_prime (seq 2 310)).

(** Integer cube root by bisection on the bits of the result. *)
Definition icbrt (n : N) : N :=
  fold_left (fun r b => let r' := r + 2 ^ b in
                        if r' * r' * r' <=? n then r' else r)
            (map N.of_nat (rev (seq 0 40))) 0.

Definition K : list N := map (fun p => w32 (icbrt (p * 2 ^ 96))) primes64.
Definition H0 : list N := map (fun p => w32 (N.sqrt (p * 2 ^ 64))) (firstn 8 primes64).

(** Big-endian conversions. *)
Definition be_bytes (width : nat) (x : N) : bytes :=
  map (fun i => byte_of_N (N.shiftr x (8 * N.of_nat i))) (rev (seq 0 width)).
Definition be_word (bs : bytes) : N :=
  fold_left (fun acc b => acc * 256 + Byte.to_N b) bs 0.

(** Section 5.1.1: append the bit 1, then zeros up to 56 mod 64 bytes,
    then the message length in bits as a 64-bit integer. *)
Definition pad (msg : bytes) : bytes :=
  let l := N.of_nat (length msg) in
  let k := (64 - (l + 9) mod 64) mod 64 in
  msg ++ [x80] ++ repeat x00 (N.to_nat k) ++ be_bytes 8 (8 * l).

(** Cut a list into pieces of [n] elements ([fuel] bounds the pieces). *)
Fixpoint chunks {A} (fuel n : nat) (l : list A) : list (list A) :=
  match fuel, l with
  | O, _ | _, [] => []
  | S fuel', _ => firstn n l :: chunks fuel' n (skipn n l)
  end.

Definition block_words (block : bytes) : list N :=
  map be_word (chunks 16 4 block).

(** Section 6.2.2, step 1: the message schedule. *)
Definition schedule (M : list N) : list N :=
  fold_left
    (fun W t =>
       W ++ [add32 (add32 (add32 (sigma1 (nth (t - 2) W 0)) (nth (t - 7) W 0))
                          (sigma0 (nth (t - 15) W 0)))
                   (nth (t - 16) W 0)])
    (seq 16 48) M.

Record state := State { va : N; vb : N; vc : N; vd : N;
                        ve : N; vf : N; vg : N; vh : N }.

(** Section 6.2.2, step 3: one round. *)
Definition round (s : state) (kw : N * N) : state :=
  let T1 := add32 (add32 (add32 (add32 (vh s) (Sigma1 (ve s)))
                                (Ch (ve s) (vf s) (vg s))) (fst kw)) (snd kw) in
  let T2 := add32 (Sigma0 (va s)) (Maj (va s) (vb s) (vc s)) in
  State (add32 T1 T2) (va s) (vb s) (vc s) (add32 (vd s) T1) (ve s) (vf s) (vg s).

Definition state_of (H : list N) : state :=
  State (nth 0 H 0) (nth 1 H 0) (nth 2 H 0) (nth 3 H 0)
        (nth 4 H 0) (nth 5 H 0) (nth 6 H 0) (nth 7 H 0).
Definition words_of (s : state) : list N :=
  [va s; vb s; vc s; vd s; ve s; vf s; vg s; vh s].

(** Section 6.2.2: process one 512-bit block. *)
Definition compress (H : list N) (block : bytes) : list N :=
  let W := schedule (block_words block) in
  let s := fold_left round (combine K W) (state_of H) in
  map (fun hv => add32 (fst hv) (snd hv)) (combine H (words_of s)).

Definition sha256 (msg : bytes) : bytes :=
  let padded := pad msg in
  let blocks := chunks (length padded) 64 padded in
  concat (map (be_bytes 4) (fold_left compress blocks H0)).
End SHA256.

(** [digest.hex()], used to state known answers. *)
Definition hex_digit (n : N) : ascii :=
  nth (N.to_nat n) (list_ascii_of_string "0123456789abcdef") "?"%char.
Definition hexdigest (bs : bytes) : string :=
  string_of_list_ascii
    (concat (map (fun b => [hex_digit (Byte.to_N b / 16); hex_digit (Byte.to_N b mod 16)]) bs)).

(** ** PKCE helpers of the module *)

(** [_generate_code_verifier(length=64)].  [token] stands for the value of
    [secrets.token_bytes(48)], the only source of randomness. *)
Definition _generate_code_verifier (length : Z) (token : bytes) : result pystr :=
  let* verifier := decode_ascii (Base64.urlsafe_b64encode token) in
  let verifier := rstrip_chars (lit "=") verifier in
  let verifier :=
    if (Datatypes.length verifier <? 43)%nat
    then verifier ++ repeat (chr "A") (43 - Datatypes.length verifier)
    else verifier in
  Return (firstn 128 verifier).

(** [_code_challenge(verifier)]. *)
Definition _code_challenge (verifier : pystr) : result pystr :=
  let* data := encode_ascii verifier in
  let digest := SHA256.sha256 data in
  let* text := decode_ascii (Base64.urlsafe_b64encode digest) in
  Return (rstrip_chars (lit "=") text).

(** *** What the specification asks of the challenge

    "base64url(SHA-256(verifier)), no padding": the unpadded base64url
    encoding of RFC 4648 sections 5 and 3.2, stated on the bit string of the
    input: the bits are read most significant first in groups of six, the
    last group is completed with zero bits, and each group selects one
    character of the URL-safe alphabet. *)
Module PkceSpec.
Definition url_alphabet : pystr :=
  lit "ABCDEFGHIJKLMNOPQRSTUVWXYZabcdefghijklmnopqrstuvwxyz0123456789-_".

Definition byte_bits (b : byte) : list bool :=
  map (N.testbit (Byte.to_N b)) [7; 6; 5; 4; 3; 2; 1; 0]%N.

Fixpoint sextets (bits : list bool) : list (list bool) :=
  match bits with
  | b0 :: b1 :: b2 :: b3 :: b4 :: b5 :: rest =>
      [b0; b1; b2; b3; b4; b5] :: sextets rest
  | [] => []
  | partial => [firstn 6 (partial ++ repeat false 5)]
  end.

Definition bits_value (g : list bool) : N :=
  fold_left (fun acc b => 2 * acc + N.b2n b)%N g 0%N.

Definition base64url_nopad (s : bytes) : pystr :=
  map (fun g => nth (N.to_nat (bits_value g)) url_alphabet 0%N)
      (sextets (concat (map byte_bits s))).

(** The unreserved characters of RFC 3986, the alphabet RFC 7636 allows
    in a code verifier: ALPHA / DIGIT / "-" / "." / "_" / "~". *)
Definition unreserved (c : N) : bool :=
  ((65 <=? c) && (c <=? 90) || (97 <=? c) && (c <=? 122)
   || (48 <=? c) && (c <=? 57)
   || (c =? 45) || (c =? 46) || (c =? 95) || (c =? 126))%N.
End PkceSpec.

(** *** Auxiliary definitions for the comparison of the two encoders *)

Section EncoderAux.
Import Base64 PkceSpec.
Local Open Scope N_scope.

Definition url_char (i : N) : N := nth (N.to_nat i) url_alphabet 0.

(** The encoder's output as code points. *)
Definition encoded (s : bytes) : pystr := map Byte.to_N (urlsafe_b64encode s).

(** The four characters of one quantum. *)
Definition quad (a b c : byte) : pystr :=
  let q := quantum a b c in
  [url_char (sextet q 18); url_char (sextet q 12);
   url_char (sextet q 6); url_char (sextet q 0)].

(** A character the encoder may produce: ASCII, unreserved, not the pad. *)
Definition plain (c : N) : bool :=
  (c <? 128) && unreserved c && negb (contains c (lit "=")).
End EncoderAux.

(** ** JSON values, as [json.loads] returns them *)

#[warnings="-register-all"]
Inductive json : Type :=
| JNull
| JBool (b : bool)
| JInt (z : Z)
| JFloat (is_zero : bool) (text : pystr)
| JStr (s : pystr)
| JList (items : list json)
| JDict (items : list (pystr * json)).

(** [bool(v)]. *)
Definition json_truthy (v : json) : bool :=
  match v with
  | JNull => false
  | JBool b => b
  | JInt z => negb (z =? 0)%Z
  | JFloat is_zero _ => negb is_zero
  | JStr s => truthy s
  | JList items => match items with [] => false | _ => true end
  | JDict items => match items with [] => false | _ => true end
  end.

(** [type(v).__name__]. *)
Definition json_type_name (v : json) : pystr :=
  match v with
  | JNull => lit "NoneType"
  | JBool _ => lit "bool"
  | JInt _ => lit "int"
  | JFloat _ _ => lit "float"
  | JStr _ => lit "str"
  | JList _ => lit "list"
  | JDict _ => lit "dict"
  end.

(** ** Library behaviour taken as given

    Functions of the standard library that the program calls and whose
    results are not computed here.  Nothing is assumed about them. *)
Record Lib : Type := {
  (** [unicodedata.normalize('NFKC', s)] *)
  nfkc : pystr -> pystr;
  (** [urllib.parse._check_bracketed_netloc(netloc)]: the [ValueError] it
      raises for a bracketed host that is not an IPv6 or IPvFuture
      address, if any *)
  check_bracketed_netloc : pystr -> option exn;
  (** [json.loads(text)] *)
  json_loads : pystr -> result json;
  (** [format(v, "")], the text an f-string shows for [v] *)
  py_format : json -> pystr;
  (** [repr(s)] of a string *)
  py_repr : pystr -> pystr;
  (** [textwrap.indent(text, prefix)] *)
  textwrap_indent : pystr -> pystr -> pystr
}.

(** ** urllib.parse (CPython 3.11) *)

Module Url.
Local Open Scope N_scope.

Record ParseResult : Type := {
  scheme : pystr; netloc : pystr; path : pystr;
  params : pystr; query : pystr; fragment : pystr
}.

Definition scheme_chars : pystr :=
  lit "abcdefghijklmnopqrstuvwxyzABCDEFGHIJKLMNOPQRSTUVWXYZ0123456789+-.".

Definition uses_params : list pystr :=
  map lit [""; "ftp"; "hdl"; "prospero"; "http"; "imap"; "https"; "shttp";
           "rtsp"; "rtspu"; "sip"; "sips"; "mms"; "sftp"; "tel"]%string.

(** A member of [_WHATWG_C0_CONTROL_OR_SPACE]. *)
Definition c0_control_or_space (c : N) : bool := c <=? 32.

Definition ascii_alpha (c : N) : bool :=
  (65 <=? c) && (c <=? 90) || (97 <=? c) && (c <=? 122).

(** [str.lower] on ASCII text. *)
Definition lower (s : pystr) : pystr :=
  map (fun c => if (65 <=? c) && (c <=? 90) then c + 32 else c) s.

(** The longest prefix of characters satisfying [p], and the rest. *)
Fixpoint span (p : N -> bool) (s : pystr) : pystr * pystr :=
  match s with
  | [] => ([], [])
  | c :: s' =>
      if p c then let '(a, b) := span p s' in (c :: a, b) else ([], s)
  end.

(** [(s[:r], s[r:])] for [r = s.rfind(c)], when [c in s]. *)
Fixpoint rbreak (c : N) (s : pystr) : option (pystr * pystr) :=
  match s with
  | [] => None
  | x :: s' =>
      match rbreak c s' with
      | Some (a, b) => Some (x :: a, b)
      | None => if x =? c then Some ([], s) else None
      end
  end.

(** [_splitnetloc(url, 2)], on the text after the two slashes. *)
Definition _splitnetloc (after_slashes : pystr) : pystr * pystr :=
  span (fun c => negb (contains c (lit "/?#"))) after_slashes.

Definition _splitparams (url : pystr) : pystr * pystr :=
  if contains (chr "/") url then
    match rbreak (chr "/") url with
    | Some (head, tail) =>
        match split_once (chr ";") tail with
        | Some (a, b) => (head ++ a, b)
        | None => (url, [])
        end
    | None => (url, [])
    end
  else
    match split_once (chr ";") url with
    | Some (a, b) => (a, b)
    | None => (url, [])
    end.

Section WithLib.
Variable L : Lib.

Definition _checknetloc (netloc : pystr) : result unit :=
  if negb (truthy netloc) || isascii netloc then Return tt
  else
    let n := remove_char (chr "?")
               (remove_char (chr "#")
                  (remove_char (chr ":") (remove_char (chr "@") netloc))) in
    let netloc2 := nfkc L n in
    if pystr_eqb n netloc2 then Return tt
    else if existsb (fun c => contains c netloc2) (lit "/?#@:")
    then Raise (ValueError (lit "netloc '" ++ netloc ++
                            lit "' contains invalid characters under NFKC normalization"))
    else Return tt.

(** The steps of [urlsplit]: the scheme is the text before the first
    colon when it starts with an ASCII letter and holds scheme characters
    only. *)
Definition split_scheme (url : pystr) : pystr * pystr :=
  match split_once (chr ":") url with
  | Some (c :: pre, rest) =>
      if isascii [c] && ascii_alpha c
         && forallb (fun x => contains x scheme_chars) (c :: pre)
      then (lower (c :: pre), rest)
      else ([], url)
  | _ => ([], url)
  end.

(** The network location follows two slashes; brackets in it must pair up
    and enclose an address. *)
Definition split_netloc (url : pystr) : result (pystr * pystr) :=
  if starts_with (lit "//") url then
    let '(netloc, rest) := _splitnetloc (skipn 2 url) in
    let has_open := contains (chr "[") netloc in
    let has_close := contains (chr "]") netloc in
    if has_open && negb has_close || has_close && negb has_open
    then Raise (ValueError (lit "Invalid IPv6 URL"))
    else if has_open && has_close
    then match check_bracketed_netloc L netloc with
         | Some e => Raise e
         | None => Return (netloc, rest)
         end
    else Return (netloc, rest)
  else Return ([], url).

(** [urlsplit(url)] with the default [scheme=''] and
    [allow_fragments=True]; the result's [params] is left empty. *)
Definition urlsplit (url : pystr) : result ParseResult :=
  let url := lstrip_by c0_control_or_space url in
  let url := remove_char 10 (remove_char 13 (remove_char 9 url)) in
  let '(scheme, url) := split_scheme url in
  let* (netloc, url) := split_netloc url in
  let '(url, fragment) :=
    match split_once (chr "#") url with
    | Some (a, b) => (a, b)
    | None => (url, [])
    end in
  let '(url, query) :=
    match split_once (chr "?") url with
    | Some (a, b) => (a, b)
    | None => (url, [])
    end in
  let* _ := _checknetloc netloc in
  Return {| scheme := scheme; netloc := netloc; path := url;
            params := []; query := query; fragment := fragment |}.

Definition urlparse (url : pystr) : result ParseResult :=
  let* r := urlsplit url in
  if existsb (pystr_eqb (scheme r)) uses_params && contains (chr ";") (path r)
  then let '(url, params) := _splitparams (path r) in
       Return {| scheme := scheme r; netloc := netloc r; path := url;
                 params := params; query := query r;
                 fragment := fragment r |}
  else Return r.
End WithLib.

(** *** unquote and parse_qs *)

Definition hex_value (c : N) : option N :=
  if (48 <=? c) && (c <=? 57) then Some (c - 48)
  else if (65 <=? c) && (c <=? 70) then Some (c - 55)
  else if (97 <=? c) && (c <=? 102) then Some (c - 87)
  else None.

(** [unquote_to_bytes] on ASCII text; the bytes are numbers below 256. *)
Fixpoint unquote_to_bytes (s : pystr) : list N :=
  match s with
  | [] => []
  | c :: s' =>
      if c =? 37 then
        match s' with
        | h1 :: h2 :: s'' =>
            match hex_value h1, hex_value h2 with
            | Some a, Some b => (16 * a + b) :: unquote_to_bytes s''
            | _, _ => c :: unquote_to_bytes s'
            end
        | _ => c :: unquote_to_bytes s'
        end
      else c :: unquote_to_bytes s'
  end.

Definition continuation (lo hi b : N) : bool := (lo <=? b) && (b <=? hi).
Definition replacement : N := 0xFFFD.

(** [bs.decode("utf-8", "replace")]: every maximal ill-formed prefix of a
    sequence becomes one U+FFFD. *)
Fixpoint utf8_decode_replace (bs : list N) : pystr :=
  match bs with
  | [] => []
  | b0 :: r =>
      if b0 <? 0x80 then b0 :: utf8_decode_replace r
      else if (0xC2 <=? b0) && (b0 <=? 0xDF) then
        match r with
        | b1 :: r1 =>
            if continuation 0x80 0xBF b1
            then ((b0 - 0xC0) * 64 + (b1 - 0x80)) :: utf8_decode_replace r1
            else replacement :: utf8_decode_replace r
        | [] => [replacement]
        end
      else if (0xE0 <=? b0) && (b0 <=? 0xEF) then
        let lo := if b0 =? 0xE0 then 0xA0 else 0x80 in
        let hi := if b0 =? 0xED then 0x9F else 0xBF in
        match r with
        | b1 :: r1 =>
            if continuation lo hi b1 then
              match r1 with
              | b2 :: r2 =>
                  if continuation 0x80 0xBF b2
                  then ((b0 - 0xE0) * 4096 + (b1 - 0x80) * 64 + (b2 - 0x80))
                         :: utf8_decode_replace r2
                  else replacement :: utf8_decode_replace r1
              | [] => [replacement]
              end
            else replacement :: utf8_decode_replace r
        | [] => [replacement]
        end
      else if (0xF0 <=? b0) && (b0 <=? 0xF4) then
        let lo := if b0 =? 0xF0 then 0x90 else 0x80 in
        let hi := if b0 =? 0xF4 then 0x8F else 0xBF in
        match r with
        | b1 :: r1 =>
            if continuation lo hi b1 then
              match r1 with
              | b2 :: r2 =>
                  if continuation 0x80 0xBF b2 then
                    match r2 with
                    | b3 :: r3 =>
                        if continuation 0x80 0xBF b3
                        then ((b0 - 0xF0) * 262144 + (b1 - 0x80) * 4096
                              + (b2 - 0x80) * 64 + (b3 - 0x80))
                               :: utf8_decode_replace r3
                        else replacement :: utf8_decode_replace r2
                    | [] => [replacement]
                    end
                  else replacement :: utf8_decode_replace r1
              | [] => [replacement]
              end
            else replacement :: utf8_decode_replace r
        | [] => [replacement]
        end
      else replacement :: utf8_decode_replace r
  end.

(** [unquote]'s loop over the maximal ASCII runs of the string: [run]
    holds the current run, reversed. *)
Definition flush_run (run : pystr) : pystr :=
  utf8_decode_replace (unquote_to_bytes (rev run)).

Fixpoint unquote_runs (run : pystr) (s : pystr) : pystr :=
  match s with
  | [] => flush_run run
  | c :: s' =>
      if c <? 128 then unquote_runs (c :: run) s'
      else flush_run run ++ c :: unquote_runs [] s'
  end.

Definition unquote (s : pystr) : pystr :=
  if negb (contains (chr "%") s) then s else unquote_runs [] s.

(** [parse_qsl(qs)] with its defaults ([keep_blank_values=False],
    [strict_parsing=False], separator [&]). *)
Definition plus_to_space (s : pystr) : pystr :=
  map (fun c => if c =? 43 then 32 else c) s.

Definition parse_field (name_value : pystr) : option (pystr * pystr) :=
  match split_once (chr "=") name_value with
  | Some (name, value) =>
      if truthy value
      then Some (unquote (plus_to_space name), unquote (plus_to_space value))
      else None
  | None => None
  end.

Definition parse_qsl (qs : pystr) : list (pystr * pystr) :=
  if truthy qs then omap parse_field (split_on (chr "&") qs) else [].

(** [parse_qs(qs)]: the values of each name, in order of appearance. *)
Definition parse_qs (qs : pystr) : gmap pystr (list pystr) :=
  fold_left
    (fun parsed_result nv =>
       match parsed_result !! fst nv with
       | Some values => <[fst nv := values ++ [snd nv]]> parsed_result
       | None => <[fst nv := [snd nv]]> parsed_result
       end)
    (parse_qsl qs) ∅.
End Url.

(** *** quote and urlencode *)

Module UrlEncode.
Local Open Scope N_scope.

(** [s.encode("utf-8")] (strict): surrogates cannot be encoded, and the
    [UnicodeEncodeError] names the first run of them. *)
Definition surrogate (c : N) : bool := (0xD800 <=? c) && (c <=? 0xDFFF).

Definition utf8_char (c : N) : list N :=
  if c <? 0x80 then [c]
  else if c <? 0x800 then [0xC0 + c / 64; 0x80 + c mod 64]
  else if c <? 0x10000 then
    [0xE0 + c / 4096; 0x80 + (c / 64) mod 64; 0x80 + c mod 64]
  else
    [0xF0 + c / 262144; 0x80 + (c / 4096) mod 64; 0x80 + (c / 64) mod 64;
     0x80 + c mod 64].

Definition utf8_encode (s : pystr) : result (list N) :=
  if existsb surrogate s
  then Raise (UnicodeError
                (encode_error_text (lit "utf-8") (lit "surrogates not allowed")
                                   surrogate s))
  else Return (flat_map utf8_char s).

(** A member of [_ALWAYS_SAFE]. *)
Definition always_safe (b : N) : bool :=
  (65 <=? b) && (b <=? 90) || (97 <=? b) && (b <=? 122)
  || (48 <=? b) && (b <=? 57)
  || (b =? 95) || (b =? 46) || (b =? 45) || (b =? 126).

Definition upper_hex (n : N) : N :=
  nth (N.to_nat n) (lit "0123456789ABCDEF") 0.

(** [quote_from_bytes(bs, safe='')]. *)
Definition quote_from_bytes (bs : list N) : pystr :=
  flat_map (fun b => if always_safe b then [b]
                     else [37; upper_hex (b / 16); upper_hex (b mod 16)]) bs.

(** [quote(string, safe='')]. *)
Definition quote (s : pystr) : result pystr :=
  let* bs := utf8_encode s in Return (quote_from_bytes bs).
End UrlEncode.

(** ** Python dictionaries whose order is observable

    A [dict] literal keeps its keys in order of insertion; the form data of
    a token request is sent in that order. *)
Definition pydict := list (pystr * json).

Definition dict_mem (k : pystr) (d : pydict) : bool :=
  existsb (fun kv => pystr_eqb (fst kv) k) d.

Definition dict_get (d : pydict) (k : pystr) : option json :=
  snd <$> find (fun kv => pystr_eqb (fst kv) k) d.

(** [d[k] = v]. *)
Fixpoint dict_set (d : pydict) (k : pystr) (v : json) : pydict :=
  match d with
  | [] => [(k, v)]
  | (k', v') :: d' =>
      if pystr_eqb k' k then (k, v) :: d' else (k', v') :: dict_set d' k v
  end.

(** [d.pop(k, None)], for its effect on [d]. *)
Definition dict_pop (d : pydict) (k : pystr) : pydict :=
  filter (fun kv => negb (pystr_eqb (fst kv) k)) d.

(** A [str | None] as a Python object. *)
Definition of_opt (o : option pystr) : json :=
  match o with Some s => JStr s | None => JNull end.

(** [bool(o)] and [o or d] for an optional Python object. *)
Definition truthy_obj (o : option json) : bool :=
  match o with Some v => json_truthy v | None => false end.

(** ** Constants of the module *)

Definition DEFAULT_TENANT_ID : pystr := lit "14b77578-9773-42d5-8507-251ca2dc2b06".
Definition DEFAULT_SCOPE : pystr := lit "email openid profile offline_access".
Definition DEFAULT_ENV_FILE : pystr := lit ".env".
Definition AUTH_ENDPOINT : pystr :=
  lit "https://login.microsoftonline.com/{tenant}/oauth2/v2.0/authorize".
Definition TOKEN_ENDPOINT : pystr :=
  lit "https://login.microsoftonline.com/{tenant}/oauth2/v2.0/token".
Definition WELL_KNOWN_ENDPOINT : pystr :=
  lit "https://login.microsoftonline.com/{tenant}/v2.0/.well-known/openid-configuration".
Definition USERINFO_ENDPOINT : pystr := lit "https://graph.microsoft.com/oidc/userinfo".

(** [template.format(tenant=tenant)] for the endpoint templates, which hold
    the one replacement field [{tenant}]. *)
Fixpoint format_tenant (template tenant : pystr) : pystr :=
  match template with
  | [] => []
  | c :: rest =>
      if starts_with (lit "{tenant}") template
      then tenant ++ skipn 7 rest
      else c :: format_tenant rest tenant
  end.

(** ** Helpers of the module *)

Record HttpResponse : Type := {
  http_status : N;
  content_type : pystr;
  payload : pystr
}.

Record EntraEnvDefaults : Type := {
  env_client_id : option pystr;
  env_client_secret : option pystr;
  env_redirect_uri : option pystr;
  env_discovery_url : option pystr;
  env_tenant_id : pystr
}.

(** [EntraEnvDefaults()]. *)
Definition no_env_defaults : EntraEnvDefaults :=
  {| env_client_id := None; env_client_secret := None;
     env_redirect_uri := None; env_discovery_url := None;
     env_tenant_id := DEFAULT_TENANT_ID |}.

Record ReportEntry : Type := {
  name : pystr;
  status : string;
  detail : pystr
}.

Definition _resolve_public_client (flag : option bool)
    (client_secret : option pystr) : bool :=
  match flag with
  | None => negb (truthy_opt client_secret)
  | Some flag => flag
  end.

Section Helpers.
Variable L : Lib.

(** [str(v)]. *)
Definition py_str (v : json) : pystr :=
  match v with
  | JStr s => s
  | _ => py_format L v
  end.

(** [safe_params] of [_encode_query]. *)
Definition safe_params (params : pydict) : pydict :=
  filter (fun kv => match snd kv with JNull => false | _ => true end) params.

(** [urlencode(query, quote_via=quote)]. *)
Fixpoint urlencode_fields (query : pydict) : result (list pystr) :=
  match query with
  | [] => Return []
  | (k, v) :: rest =>
      let* k' := UrlEncode.quote k in
      let* v' := UrlEncode.quote (py_str v) in
      let* l := urlencode_fields rest in
      Return ((k' ++ lit "=" ++ v') :: l)
  end.

Definition _encode_query (params : pydict) : result pystr :=
  let* l := urlencode_fields (safe_params params) in
  Return (join (lit "&") l).

Definition _build_authorization_url (tenant_id : pystr)
    (client_id redirect_uri : option pystr)
    (scope response_mode response_type : pystr)
    (state code_challenge code_challenge_method : option pystr)
  : result pystr :=
  let params : pydict :=
    [(lit "client_id", of_opt client_id);
     (lit "redirect_uri", of_opt redirect_uri);
     (lit "response_mode", JStr response_mode);
     (lit "response_type", JStr response_type);
     (lit "scope", JStr scope);
     (lit "state", JStr (or_else state (lit "none")))] in
  let params :=
    if truthy_opt code_challenge then
      dict_set
        (dict_set params (lit "code_challenge") (of_opt code_challenge))
        (lit "code_challenge_method")
        (JStr (or_else code_challenge_method (lit "S256")))
    else params in
  let url := format_tenant AUTH_ENDPOINT tenant_id in
  let* q := _encode_query params in
  Return (url ++ lit "?" ++ q).

Definition _extract_code (value : pystr) : result pystr :=
  let trimmed := strip value in
  if negb (truthy trimmed)
  then Raise (SkipStep (lit "Authorization code not provided."))
  else
    let* parsed := Url.urlparse L trimmed in
    if truthy (Url.query parsed) then
      let query := Url.parse_qs (Url.query parsed) in
      match query !! lit "code" with
      | Some (code :: _) => Return code
      | _ =>
          Raise (RuntimeError (lit "Redirect URL does not contain a `code` parameter. Paste the full redirect URL or just the code."))
      end
    else Return trimmed.

Definition _tenant_from_discovery_url (url : option pystr)
  : result (option pystr) :=
  match url with
  | None => Return None
  | Some url =>
      if negb (truthy url) then Return None
      else
        let* parsed := Url.urlparse L url in
        let parts := filter truthy (split_on (chr "/") (Url.path parsed)) in
        match parts with
        | part :: _ => Return (Some part)
        | [] => Return None
        end
  end.

(** The values [dotenv_values] reads from a file: a key may have no
    value.  [values.get(key)]. *)
Definition env_get (values : gmap pystr (option pystr)) (key : pystr)
  : option pystr :=
  match values !! key with
  | Some v => v
  | None => None
  end.

(** [_load_env_defaults(env_file)].  [files] gives, for a path, the
    key-value pairs of the file there, or [None] when no file exists. *)
Definition _load_env_defaults
    (files : pystr -> option (gmap pystr (option pystr)))
    (env_file : pystr) : result EntraEnvDefaults :=
  match files env_file with
  | None => Return no_env_defaults
  | Some values =>
      let defaults :=
        {| env_client_id := env_get values (lit "client_id");
           env_client_secret := env_get values (lit "client_secret");
           env_redirect_uri := env_get values (lit "redirect_uri");
           env_discovery_url := env_get values (lit "discovery_url");
           env_tenant_id := DEFAULT_TENANT_ID |} in
      let* tenant :=
        if truthy_opt (env_get values (lit "tenant_id"))
        then Return (env_get values (lit "tenant_id"))
        else _tenant_from_discovery_url (env_discovery_url defaults) in
      match tenant with
      | Some t =>
          if truthy t
          then Return {| env_client_id := env_client_id defaults;
                         env_client_secret := env_client_secret defaults;
                         env_redirect_uri := env_redirect_uri defaults;
                         env_discovery_url := env_discovery_url defaults;
                         env_tenant_id := t |}
          else Return defaults
      | None => Return defaults
      end
  end.
End Helpers.

(** A printable ASCII character other than [?], [#], [[] and []]: the
    characters of a URL before its query string. *)
Definition url_text_char (c : N) : bool :=
  ((32 <? c) && (c <? 127)
   && negb ((c =? 63) || (c =? 35) || (c =? 91) || (c =? 93)))%N.

(** The values a query string gives for the name [k], in order: what
    [parse_qs(qs).get(k)] holds. *)
Definition values_of (k : pystr) (pairs : list (pystr * pystr)) : list pystr :=
  map snd (filter (fun nv => pystr_eqb (fst nv) k) pairs).

(** *** What the specification says of the tenant

    "the last-but-one path segment of discovery_url". *)
Definition last_but_one_segment (path : pystr) : option pystr :=
  let parts := filter truthy (split_on (chr "/") path) in
  match rev parts with
  | _ :: seg :: _ => Some seg
  | _ => None
  end.

(** [seg] is the first non-empty segment of [path]: only slashes come
    before it, and it ends at the next slash or at the end. *)
Definition first_segment (path seg : pystr) : Prop :=
  exists (k : nat) (rest : pystr),
    path = repeat (chr "/") k ++ seg ++ rest
    /\ seg <> []
    /\ contains (chr "/") seg = false
    /\ (rest = [] \/ exists r, rest = chr "/" :: r).

(** ** The [report] subcommand *)

(** The attributes of [args] that [handle_report] reads. *)
Module Args.
Record t : Type := {
  client_id : option pystr;
  client_secret : option pystr;
  redirect_uri : option pystr;
  env_file : pystr;
  discovery_url : option pystr;
  tenant_id : pystr;
  timeout : Z;
  client_credentials_scope : option pystr;
  authorization_code : option pystr;
  non_interactive : bool;
  open_browser : bool;
  state : option pystr;
  scope : pystr;
  response_mode : pystr;
  response_type : pystr;
  refresh_token : option pystr;
  access_token : option pystr;
  disable_pkce : bool;
  code_verifier : option pystr;
  public_client : option bool
}.
End Args.

(** *** Requests

    [urllib.request.Request(url, data, headers, method=method)]: the
    constructor unwraps the URL, refuses one without a type, capitalizes the
    header names and parses the URL for the host of the request. *)
Record Request : Type := {
  (** [req.full_url] *)
  req_url : pystr;
  req_data : option (list N);
  req_headers : list (pystr * pystr);
  (** [req.get_method()] *)
  req_method : pystr
}.

(** [str.capitalize] on ASCII text. *)
Definition capitalize (s : pystr) : pystr :=
  match s with
  | [] => []
  | c :: rest =>
      (if (97 <=? c)%N && (c <=? 122)%N then (c - 32)%N else c) :: Url.lower rest
  end.

(** [urllib.parse.unwrap(url)]. *)
Definition unwrap (url : pystr) : pystr :=
  let url := strip url in
  let url :=
    if pystr_eqb (firstn 1 url) (lit "<")
       && pystr_eqb (skipn (length url - 1) url) (lit ">")
    then strip (firstn (length url - 2) (skipn 1 url))
    else url in
  if pystr_eqb (firstn 4 url) (lit "URL:") then strip (skipn 4 url) else url.

(** [urllib.parse._splittag(url)]. *)
Definition _splittag (url : pystr) : pystr * option pystr :=
  match Url.rbreak (chr "#") url with
  | Some (path, _ :: tag) => (path, Some tag)
  | _ => (url, None)
  end.

(** [urllib.parse._splittype(url)], the type as it is written: one or
    more characters other than [/] and [:], followed by a colon. *)
Definition _splittype (url : pystr) : option pystr * pystr :=
  match Url.span (fun c => negb (contains c (lit "/:"))) url with
  | (c :: scheme, x :: data) =>
      if (x =? chr ":")%N then (Some (c :: scheme), data) else (None, url)
  | _ => (None, url)
  end.

Section UrlRequest.
Variable L : Lib.

Definition Request_init (url : pystr) (data : option (list N))
    (headers : list (pystr * pystr)) (method : option pystr) : result Request :=
  let '(_full_url, fragment) := _splittag (unwrap url) in
  let full_url :=
    if truthy_opt fragment
    then _full_url ++ lit "#" ++ default [] fragment
    else _full_url in
  match fst (_splittype _full_url) with
  | None => Raise (ValueError (lit "unknown url type: " ++ py_repr L full_url))
  | Some _ =>
      (* request_host(self) *)
      let* _ := Url.urlparse L full_url in
      Return {| req_url := full_url;
                req_data := data;
                req_headers := map (fun kv => (capitalize (fst kv), snd kv)) headers;
                req_method :=
                  if truthy_opt method then default [] method
                  else match data with
                       | Some _ => lit "POST"
                       | None => lit "GET"
                       end |}
  end.
End UrlRequest.

(** *** The outside world

    What the run exchanges with the network, the terminal, the browser and
    the random source.  A request is answered by a response, by an
    [HTTPError] (status code and body), or by another exception (network
    failure, timeout, undecodable body).  Standard output may refuse a text,
    and the user may answer a prompt with Ctrl-C.  Each call may change the
    world; nothing is assumed about the answers.  A [KeyboardInterrupt] is
    modelled where the program waits for the user, at [input]. *)
Inductive UrlOutcome : Type :=
| Responded (r : HttpResponse)
| HTTPError (code : N) (body : pystr)
| Failed (e : exn).

Inductive InputOutcome : Type :=
| Typed (line : pystr)
| InputError (e : exn)
| CtrlC.

Record World (W : Type) : Type := {
  (** [urlopen(req, timeout)], the body read and decoded *)
  urlopen : Request -> Z -> W -> UrlOutcome * W;
  (** [input(prompt)] *)
  input : pystr -> W -> InputOutcome * W;
  (** [webbrowser.open(url)] *)
  webbrowser_open : pystr -> W -> option exn * W;
  (** [secrets.token_bytes(n)] *)
  token_bytes : nat -> W -> bytes * W;
  (** [print(text)], [text] being the arguments joined by the separator:
      the exception standard output raises, if any *)
  print : pystr -> W -> option exn * W
}.
Arguments urlopen {W}.
Arguments input {W}.
Arguments webbrowser_open {W}.
Arguments token_bytes {W}.
Arguments print {W}.

(** *** Programs

    A call works on a state and ends in one of three ways: it returns, it
    raises an exception that derives from [Exception], or an exception
    that derives from [BaseException] only passes through it, which no
    [except Exception] catches. *)
Inductive base_exn : Type :=
| KeyboardInterrupt
| SystemExit (message : pystr).

Inductive ending (A : Type) : Type :=
| Returned (a : A)
| Raised (e : exn)
| Passed (b : base_exn).
Arguments Returned {A} a.
Arguments Raised {A} e.
Arguments Passed {A} b.

Definition prog (S A : Type) : Type := S -> ending A * S.

Definition ret {S A} (a : A) : prog S A := fun s => (Returned a, s).
Definition raise {S A} (e : exn) : prog S A := fun s => (Raised e, s).
Definition pass {S A} (b : base_exn) : prog S A := fun s => (Passed b, s).
Definition lift {S A} (r : result A) : prog S A :=
  fun s => (match r with Return a => Returned a | Raise e => Raised e end, s).
Definition and_then {S A B} (m : prog S A) (k : A -> prog S B) : prog S B :=
  fun s =>
    match m s with
    | (Returned a, s') => k a s'
    | (Raised e, s') => (Raised e, s')
    | (Passed b, s') => (Passed b, s')
    end.

Definition nl : pystr := [10%N].

(** [v.get(key, default)] and [len(v)] on a Python object. *)
Definition obj_get (v : json) (key : pystr) (dflt : json) : result json :=
  match v with
  | JDict items => Return (default dflt (dict_get items key))
  | _ => Raise (AttributeError
                  (lit "'" ++ json_type_name v ++ lit "' object has no attribute 'get'"))
  end.

Definition py_len (v : json) : result N :=
  match v with
  | JStr s => Return (N.of_nat (length s))
  | JList items => Return (N.of_nat (length items))
  | JDict items => Return (N.of_nat (length items))
  | _ => Raise (TypeError
                  (lit "object of type '" ++ json_type_name v ++ lit "' has no len()"))
  end.

(** [a or b] on Python objects, [a] possibly absent. *)
Definition obj_or (a : option json) (b : json) : json :=
  match a with
  | Some v => if json_truthy v then v else b
  | None => b
  end.

Section Report.
Variable L : Lib.
Context {W : Type}.
Variable X : World W.

(** The state a step works on: the [context] dictionary of the run and
    the world. *)
Record Session : Type := {
  context : gmap pystr json;
  world : W
}.

(** A step body works on the session; changes made before an exception
    stay. *)
Definition step (A : Type) : Type := prog Session A.

Notation "'let!' x ':=' m 'in' k" := (and_then m (fun x => k))
  (at level 10, x pattern, m at level 100, k at level 200).

(** [key in context], [context.get(key)], [context[key] = v]. *)
Definition ctx_has (key : pystr) : step bool :=
  fun s => (Returned (bool_decide (is_Some (context s !! key))), s).
Definition ctx_get (key : pystr) : step (option json) :=
  fun s => (Returned (context s !! key), s).
Definition ctx_set (key : pystr) (v : json) : step unit :=
  fun s => (Returned tt, {| context := <[key := v]> (context s);
                            world := world s |}).

Definition world_call {A} (f : W -> A * W) : step A :=
  fun s => let '(a, w) := f (world s) in
           (Returned a, {| context := context s; world := w |}).

(** [input(prompt)] and [print(text)] as the program meets them. *)
Definition call_input (prompt : pystr) : step pystr :=
  let! r := world_call (input X prompt) in
  match r with
  | Typed line => ret line
  | InputError e => raise e
  | CtrlC => pass KeyboardInterrupt
  end.

Definition call_print (text : pystr) : step unit :=
  let! r := world_call (print X text) in
  match r with
  | Some e => raise e
  | None => ret tt
  end.

Definition _execute (req : Request) (timeout : Z) : step HttpResponse :=
  let! out := world_call (urlopen X req timeout) in
  match out with
  | Responded r => ret r
  | HTTPError code body =>
      raise (RuntimeError (lit "HTTP " ++ decimal code
                           ++ lit " error while calling " ++ req_url req
                           ++ lit ": " ++ body))
  | Failed e => raise e
  end.

Definition _post_form (url : pystr) (data : pydict) (timeout : Z)
  : step HttpResponse :=
  let! query := lift (_encode_query L data) in
  let! encoded := lift (UrlEncode.utf8_encode query) in
  let! req :=
    lift (Request_init L url (Some encoded)
            [(lit "Content-Type", lit "application/x-www-form-urlencoded")]
            (Some (lit "POST"))) in
  _execute req timeout.

Definition _get (url : pystr) (headers : option (list (pystr * pystr)))
    (timeout : Z) : step HttpResponse :=
  let! req := lift (Request_init L url None (default [] headers) None) in
  _execute req timeout.

Definition indent (text prefix : pystr) : pystr := textwrap_indent L text prefix.

Variable args : Args.t.

Definition use_pkce : bool := negb (Args.disable_pkce args).
Definition public_client : bool :=
  _resolve_public_client (Args.public_client args) (Args.client_secret args).

Definition token_url : pystr := format_tenant TOKEN_ENDPOINT (Args.tenant_id args).

Definition step_config : step pystr :=
  let required :=
    [(lit "client_id", truthy_opt (Args.client_id args));
     (lit "redirect_uri", truthy_opt (Args.redirect_uri args))] in
  let required :=
    if negb public_client
    then required ++ [(lit "client_secret", truthy_opt (Args.client_secret args))]
    else required in
  let missing := map fst (filter (fun lp => negb (snd lp)) required) in
  match missing with
  | _ :: _ =>
      raise (RuntimeError (lit "Missing required values in " ++ Args.env_file args
                           ++ lit ": " ++ join (lit ", ") missing ++ lit "."))
  | [] =>
      let secret_detail :=
        if public_client && truthy_opt (Args.client_secret args)
        then lit "Client secret: loaded (not sent for public-client flow)"
        else if public_client
        then lit "Client secret: not required for public-client flow"
        else lit "Client secret: loaded" in
      ret (indent
             (join nl
                [lit "Client ID: loaded ("
                 ++ decimal (N.of_nat (length (default [] (Args.client_id args))))
                 ++ lit " chars)";
                 lit "Redirect URI: " ++ default [] (Args.redirect_uri args);
                 secret_detail])
             (lit "  "))
  end.

Definition step_discovery : step pystr :=
  let discovery_url :=
    or_else (Args.discovery_url args)
            (format_tenant WELL_KNOWN_ENDPOINT (Args.tenant_id args)) in
  let! response := _get discovery_url None (Args.timeout args) in
  let! payload := lift (json_loads L (payload response)) in
  let! issuer := lift (obj_get payload (lit "issuer") (JStr (lit "<unknown>"))) in
  let! token_endpoint :=
    lift (obj_get payload (lit "token_endpoint") (JStr (lit "<unknown>"))) in
  ret (indent (lit "Issuer: " ++ py_str L issuer ++ nl
               ++ lit "Token endpoint: " ++ py_str L token_endpoint)
              (lit "  ")).

Definition step_client_credentials : step pystr :=
  if public_client then
    raise (SkipStep (lit "Client credentials grant skipped because this app is registered as a public client."))
  else if negb (truthy_opt (Args.client_credentials_scope args)) then
    raise (SkipStep (lit "No client-credentials scope supplied. Provide `--client-credentials-scope` to exercise this step."))
  else
    let data : pydict :=
      [(lit "client_id", of_opt (Args.client_id args));
       (lit "client_secret", of_opt (Args.client_secret args));
       (lit "grant_type", JStr (lit "client_credentials"));
       (lit "scope", of_opt (Args.client_credentials_scope args))] in
    let! response := _post_form token_url data (Args.timeout args) in
    let! parsed := lift (json_loads L (payload response)) in
    let! _ := ctx_set (lit "client_credentials") parsed in
    let! expires := lift (obj_get parsed (lit "expires_in") (JStr (lit "unknown"))) in
    let! token := lift (obj_get parsed (lit "access_token") (JStr [])) in
    let! token_chars := lift (py_len token) in
    ret (indent (lit "Issued client_credentials access token (length "
                 ++ decimal token_chars ++ lit " chars, expires in "
                 ++ py_str L expires ++ lit "s).")
                (lit "  ")).

(** [_code_challenge(v)] on an object taken from the context. *)
Definition code_challenge_of (v : json) : result pystr :=
  match v with
  | JStr s => _code_challenge s
  | _ => Raise (AttributeError
                  (lit "'" ++ json_type_name v ++ lit "' object has no attribute 'encode'"))
  end.

Definition build_url (code_challenge : option pystr) : result pystr :=
  _build_authorization_url L (Args.tenant_id args) (Args.client_id args)
    (Args.redirect_uri args) (Args.scope args) (Args.response_mode args)
    (Args.response_type args) (Args.state args) code_challenge
    (if truthy_opt code_challenge then Some (lit "S256") else None).

Definition step_authorization : step pystr :=
  if truthy_opt (Args.authorization_code args) then
    let! has_verifier := ctx_has (lit "code_verifier") in
    if use_pkce && negb has_verifier then
      raise (RuntimeError (lit "PKCE is required for this flow. Supply --code-verifier with the value used when obtaining the code."))
    else
      let! extracted :=
        lift (_extract_code L (default [] (Args.authorization_code args))) in
      let! _ := ctx_set (lit "authorization_code") (JStr extracted) in
      ret (indent (lit "Authorization code supplied via CLI options.") (lit "  "))
  else if Args.non_interactive args then
    raise (SkipStep (lit "Authorization code not provided and prompts are disabled (--non-interactive)."))
  else
    let! has_verifier := ctx_has (lit "code_verifier") in
    let! _ :=
      if use_pkce && negb has_verifier then
        let! token := world_call (token_bytes X 48) in
        let! verifier := lift (_generate_code_verifier 64 token) in
        ctx_set (lit "code_verifier") (JStr verifier)
      else ret tt in
    let! code_verifier := ctx_get (lit "code_verifier") in
    let! code_challenge :=
      if use_pkce && truthy_obj code_verifier then
        let! c := lift (code_challenge_of (default JNull code_verifier)) in
        ret (Some c)
      else ret None in
    let! url := lift (build_url code_challenge) in
    let! _ := ctx_set (lit "authorization_url") (JStr url) in
    let! _ :=
      call_print
        (join nl [lit "Open the authorization URL above in a browser.";
                  lit "Complete the login and paste the resulting redirect URL or code."]) in
    let! _ :=
      if Args.open_browser args then
        let! r := world_call (webbrowser_open X url) in
        match r with
        | Some e => raise e
        | None => ret tt
        end
      else ret tt in
    let! _ :=
      if truthy_obj code_verifier then
        call_print
          (nl ++ lit "PKCE code verifier for this session (you only need this if you re-run with --authorization-code):"
           ++ nl ++ py_str L (default JNull code_verifier) ++ nl)
      else ret tt in
    let! _ := call_print (nl ++ lit "Authorization URL:" ++ nl ++ url ++ nl) in
    let! typed :=
      call_input (lit "Paste the redirect URL or authorization code (leave blank to skip): ") in
    let raw_input := strip typed in
    if negb (truthy raw_input) then
      raise (SkipStep (lit "Authorization code not provided. Re-run with --authorization-code or allow interactive prompts."))
    else
      let! extracted := lift (_extract_code L raw_input) in
      let! _ := ctx_set (lit "authorization_code") (JStr extracted) in
      ret (indent (lit "Authorization code captured via interactive login.") (lit "  ")).

(** The form data of [step_token], from the literal to the last update. *)
Definition step_token_data (code : json) (code_verifier : option json) : pydict :=
  let data : pydict :=
    [(lit "client_id", of_opt (Args.client_id args));
     (lit "client_secret", of_opt (Args.client_secret args));
     (lit "grant_type", JStr (lit "authorization_code"));
     (lit "code", code);
     (lit "redirect_uri", of_opt (Args.redirect_uri args));
     (lit "scope", JStr (Args.scope args))] in
  let data := if public_client then dict_pop data (lit "client_secret") else data in
  if truthy_obj code_verifier
  then dict_set data (lit "code_verifier") (default JNull code_verifier)
  else data.

Definition step_token : step pystr :=
  let! code := ctx_get (lit "authorization_code") in
  if negb (truthy_obj code) then
    raise (SkipStep (lit "No authorization code captured; token exchange skipped."))
  else
    let! code_verifier := ctx_get (lit "code_verifier") in
    if use_pkce && negb (truthy_obj code_verifier) then
      raise (RuntimeError (lit "PKCE code verifier missing. Capture the code and verifier in the same run or provide --code-verifier."))
    else
      let data := step_token_data (default JNull code) code_verifier in
      let! response := _post_form token_url data (Args.timeout args) in
      let! parsed := lift (json_loads L (payload response)) in
      let! _ := ctx_set (lit "auth_tokens") parsed in
      let! expires := lift (obj_get parsed (lit "expires_in") (JStr (lit "unknown"))) in
      let has_refresh :=
        match parsed with
        | JDict items => dict_mem (lit "refresh_token") items
        | _ => false
        end in
      let! token := lift (obj_get parsed (lit "access_token") (JStr [])) in
      let! token_chars := lift (py_len token) in
      ret (indent
             (join nl
                [lit "Received access token (length " ++ decimal token_chars
                 ++ lit " chars).";
                 lit "Expires in: " ++ py_str L expires ++ lit " seconds.";
                 lit "Refresh token issued: "
                 ++ (if has_refresh then lit "yes" else lit "no") ++ lit "."])
             (lit "  ")).

Definition step_refresh : step pystr :=
  let! auth_tokens := ctx_get (lit "auth_tokens") in
  let! refresh_token :=
    if truthy_opt (Args.refresh_token args)
    then ret (of_opt (Args.refresh_token args))
    else lift (obj_get (obj_or auth_tokens (JDict [])) (lit "refresh_token") JNull) in
  if negb (json_truthy refresh_token) then
    raise (SkipStep (lit "No refresh token available. Ensure offline_access scope is granted."))
  else
    let data : pydict :=
      [(lit "client_id", of_opt (Args.client_id args));
       (lit "grant_type", JStr (lit "refresh_token"));
       (lit "refresh_token", refresh_token);
       (lit "scope", JStr (Args.scope args))] in
    let data :=
      if negb public_client
      then dict_set data (lit "client_secret") (of_opt (Args.client_secret args))
      else data in
    let! response := _post_form token_url data (Args.timeout args) in
    let! parsed := lift (json_loads L (payload response)) in
    let! _ := ctx_set (lit "refresh_tokens") parsed in
    let! expires := lift (obj_get parsed (lit "expires_in") (JStr (lit "unknown"))) in
    ret (indent (lit "Refresh token exchanged successfully (new access token expires in "
                 ++ py_str L expires ++ lit "s).")
                (lit "  ")).

(** The comprehension of [step_userinfo] over the four standard claims. *)
Fixpoint important_claims (claims : json) (keys : list pystr)
  : result (list (pystr * json)) :=
  match keys with
  | [] => Return []
  | key :: keys' =>
      let* probe := obj_get claims key JNull in
      match probe with
      | JNull => important_claims claims keys'
      | _ =>
          let* v := obj_get claims key JNull in
          let* rest := important_claims claims keys' in
          Return ((key, v) :: rest)
      end
  end.

Definition step_userinfo : step pystr :=
  let! auth_tokens := ctx_get (lit "auth_tokens") in
  let token_source := obj_or auth_tokens (JDict []) in
  let! access_token :=
    if truthy_opt (Args.access_token args)
    then ret (of_opt (Args.access_token args))
    else lift (obj_get token_source (lit "access_token") JNull) in
  if negb (json_truthy access_token) then
    raise (SkipStep (lit "No access token available for userinfo call."))
  else
    let! response :=
      _get USERINFO_ENDPOINT
           (Some [(lit "Authorization", lit "Bearer " ++ py_str L access_token)])
           (Args.timeout args) in
    let! claims := lift (json_loads L (payload response)) in
    let! important :=
      lift (important_claims claims
              (map lit ["sub"; "email"; "name"; "preferred_username"]%string)) in
    let summary :=
      join nl (map (fun kv => fst kv ++ lit ": " ++ py_str L (snd kv)) important) in
    ret (indent (if truthy summary then summary
                 else lit "No standard claims returned.")
                (lit "  ")).

(** [run_step(name, func)].  What the handlers append for the way
    [func()] ended: one entry, or nothing when the exception does not
    derive from [Exception] and passes through [run_step]. *)
Definition entry_of (name : pystr) (r : ending pystr) : list ReportEntry :=
  match r with
  | Returned detail => [{| name := name; status := "PASS"; detail := detail |}]
  | Raised (SkipStep skip_exc) =>
      [{| name := name; status := "SKIP"; detail := skip_exc |}]
  | Raised exc => [{| name := name; status := "FAIL"; detail := exn_text exc |}]
  | Passed _ => []
  end.

(** The runner works on the session and the entries recorded so far. *)
Definition in_session {A} (m : step A) : prog (Session * list ReportEntry) A :=
  fun run => let '(r, s) := m (fst run) in (r, (s, snd run)).

Definition recorded : prog (Session * list ReportEntry) (list ReportEntry) :=
  fun run => (Returned (snd run), run).

Definition run_step (name : pystr) (func : step pystr)
  : prog (Session * list ReportEntry) unit :=
  fun run =>
    let '(r, s) := func (fst run) in
    (match r with
     | Passed b => Passed b
     | _ => Returned tt
     end,
     (s, snd run ++ entry_of name r)).

Definition initial_context : gmap pystr json :=
  if truthy_opt (Args.code_verifier args)
  then <[lit "code_verifier" := of_opt (Args.code_verifier args)]> ∅
  else ∅.

Definition is_failure (e : ReportEntry) : bool := String.eqb (status e) "FAIL".

(** The loop that prints the entries. *)
Definition print_entry (entry : ReportEntry) : step unit :=
  let! _ := call_print (lit "[" ++ lit (status entry) ++ lit "] " ++ name entry) in
  let! _ := call_print (indent (detail entry) (lit "    ")) in
  call_print [].

Fixpoint print_entries (entries : list ReportEntry) : step unit :=
  match entries with
  | [] => ret tt
  | entry :: rest =>
      let! _ := print_entry entry in
      print_entries rest
  end.

(** The body of [handle_report] after its definitions: the seven calls
    of [run_step], then the report and the exit. *)
Definition run_steps : prog (Session * list ReportEntry) unit :=
  let! _ := run_step (lit "Load configuration from " ++ Args.env_file args)
                     step_config in
  let! _ := run_step (lit "Fetch OIDC discovery metadata") step_discovery in
  let! _ := run_step (lit "Client credentials grant") step_client_credentials in
  let! _ := run_step (lit "Authorization code capture") step_authorization in
  let! _ := run_step (lit "Exchange authorization code for tokens") step_token in
  let! _ := run_step (lit "Refresh token exchange") step_refresh in
  run_step (lit "Userinfo endpoint call") step_userinfo.

Definition print_report : prog (Session * list ReportEntry) unit :=
  let! _ :=
    in_session
      (call_print (nl ++ lit "Microsoft Entra validation report" ++ nl
                   ++ lit "=================================")) in
  let! entries := recorded in
  let! _ := in_session (print_entries entries) in
  let failures := filter is_failure entries in
  match failures with
  | _ :: _ =>
      let! _ :=
        if existsb (fun entry => substring_in (lit "AADSTS9002327") (detail entry))
                   failures
        then in_session
               (call_print (lit "Hint: Microsoft Entra treated this app as a SPA. Use the `browser-helper` subcommand to redeem the authorization code directly in the browser."))
        else ret tt in
      pass (SystemExit (lit "One or more steps failed. See report above for details."))
  | [] => ret tt
  end.

Definition report_body : prog (Session * list ReportEntry) unit :=
  let! _ := run_steps in
  print_report.

(** What a run leaves: the entries, the way it ended, and the final
    session. *)
Record Outcome : Type := {
  entries : list ReportEntry;
  ended : ending unit;
  final : Session
}.

Definition handle_report (w : W) : Outcome :=
  let '(r, run) :=
    report_body ({| context := initial_context; world := w |}, []) in
  {| entries := snd run; ended := r; final := fst run |}.

(** The exit status of the process.  [SystemExit] with a message and an
    exception that nothing catches give 1 ([main] turns a [RuntimeError]
    into status 1 as well); an unhandled [KeyboardInterrupt] ends the
    process through SIGINT, which a shell reports as 130. *)
Definition exit_status (o : Outcome) : Z :=
  match ended o with
  | Returned _ => 0
  | Raised _ => 1
  | Passed (SystemExit _) => 1
  | Passed KeyboardInterrupt => 130
  end.
End Report.

(** The keys a public client's token request may carry. *)
Definition token_form_keys : list pystr :=
  map lit ["client_id"; "grant_type"; "code"; "redirect_uri"; "scope";
           "code_verifier"]%string.

(** *** Which keys of the context a step body may write *)

Definition writes_only {W A : Type} (keys : list pystr) (m : @step W A) : Prop :=
  forall (s : Session) (k : pystr),
    k ∉ keys -> context (snd (m s)) !! k = context s !! k.

(** *** Which exceptions pass through a step body

    [passes Q m]: an exception that does not derive from [Exception]
    leaves [m] only if it satisfies [Q]. *)
Definition passes {W A : Type} (Q : base_exn -> Prop) (m : @step W A) : Prop :=
  forall (s : Session) (b : base_exn), fst (m s) = Passed b -> Q b.

(** [raises P m]: an exception that derives from [Exception] leaves [m]
    only if it satisfies [P]. *)
Definition raises {W A : Type} (P : exn -> Prop) (m : @step W A) : Prop :=
  forall (s : Session) (e : exn), fst (m s) = Raised e -> P e.

(** *** The requests of a run

    A world that also keeps the requests handed to [urlopen], in order. *)
Definition logged {W : Type} (X : World W) : World (W * list Request) :=
  {| urlopen req timeout ws :=
       let '(out, w) := urlopen X req timeout (fst ws) in
       (out, (w, snd ws ++ [req]));
     input prompt ws :=
       let '(r, w) := input X prompt (fst ws) in (r, (w, snd ws));
     webbrowser_open url ws :=
       let '(r, w) := webbrowser_open X url (fst ws) in (r, (w, snd ws));
     token_bytes n ws :=
       let '(r, w) := token_bytes X n (fst ws) in (r, (w, snd ws));
     print text ws :=
       let '(r, w) := print X text (fst ws) in (r, (w, snd ws)) |}.

(** Every request a step body makes under a logging world satisfies [P]. *)
Definition sends {W A : Type} (P : Request -> Prop)
    (m : @step (W * list Request) A) : Prop :=
  forall s : Session,
    exists new, snd (world (snd (m s))) = snd (world s) ++ new /\ Forall P new.

(** No field of the request's form is named [client_secret]. *)
Definition secret_free (req : Request) : Prop :=
  match req_data req with
  | Some body =>
      Forall (fun field => starts_with (lit "client_secret=") field = false)
             (split_on (chr "&") body)
  | None => True
  end.

(** ** Test doubles, after the stubs of tests/test_entra_test_cli.py

    Used to run the model on concrete inputs. *)
Module Stub.
(** Python text with double quotes, written with single quotes. *)
Definition dq (s : pystr) : pystr :=
  map (fun c => if (c =? 39)%N then 34%N else c) s.

Definition discovery_payload : pystr :=
  dq (lit "{'issuer': 'https://issuer', 'token_endpoint': 'https://issuer/token'}").
Definition app_payload : pystr :=
  dq (lit "{'access_token': 'app-token', 'expires_in': 1200}").
Definition refreshed_payload : pystr :=
  dq (lit "{'access_token': 'refreshed', 'expires_in': 1800}").
Definition token_payload : pystr :=
  dq (lit "{'access_token': 'token', 'refresh_token': 'refresh', 'expires_in': 3600}").
(** A discovery document whose issuer is a lone surrogate, written as a
    JSON escape. *)
Definition surrogate_payload : pystr :=
  dq (lit "{'issuer': '\ud800', 'token_endpoint': 'https://issuer/token'}").

(** [json.loads] on the payloads of the stubs. *)
Definition loads (text : pystr) : result json :=
  if pystr_eqb text discovery_payload then
    Return (JDict [(lit "issuer", JStr (lit "https://issuer"));
                   (lit "token_endpoint", JStr (lit "https://issuer/token"))])
  else if pystr_eqb text app_payload then
    Return (JDict [(lit "access_token", JStr (lit "app-token"));
                   (lit "expires_in", JInt 1200)])
  else if pystr_eqb text refreshed_payload then
    Return (JDict [(lit "access_token", JStr (lit "refreshed"));
                   (lit "expires_in", JInt 1800)])
  else if pystr_eqb text token_payload then
    Return (JDict [(lit "access_token", JStr (lit "token"));
                   (lit "refresh_token", JStr (lit "refresh"));
                   (lit "expires_in", JInt 3600)])
  else if pystr_eqb text surrogate_payload then
    Return (JDict [(lit "issuer", JStr [0xD800%N]);
                   (lit "token_endpoint", JStr (lit "https://issuer/token"))])
  else Raise (OtherError "JSONDecodeError" (lit "Expecting value")).

Definition format (v : json) : pystr :=
  match v with
  | JStr s => s
  | JInt z => if (z <? 0)%Z then lit "-" ++ decimal (Z.to_N (- z))
              else decimal (Z.to_N z)
  | JNull => lit "None"
  | JBool true => lit "True"
  | JBool false => lit "False"
  | _ => lit "<object>"
  end.

Definition lib : Lib :=
  {| nfkc := fun s => s;
     check_bracketed_netloc := fun _ => None;
     json_loads := loads;
     py_format := format;
     py_repr := fun s => lit "'" ++ s ++ lit "'";
     textwrap_indent := fun text prefix =>
       join nl (map (fun line => if truthy (strip line) then prefix ++ line else line)
                    (split_on 10%N text)) |}.

(** [fake_get] and [fake_post_form]: every call succeeds; the world is
    the list of the requests made so far. *)
Definition respond (req : Request) : HttpResponse :=
  let body := default [] (req_data req) in
  let text :=
    if pystr_eqb (req_method req) (lit "GET") then discovery_payload
    else if substring_in (lit "grant_type=client_credentials") body then app_payload
    else if substring_in (lit "grant_type=refresh_token") body then refreshed_payload
    else token_payload in
  {| http_status := 200; content_type := lit "application/json"; payload := text |}.

Definition world : World (list Request) :=
  {| urlopen := fun req _ log => (Responded (respond req), log ++ [req]);
     input := fun _ log => (Typed [], log);
     webbrowser_open := fun _ log => (None, log);
     token_bytes := fun n log => (repeat x00 n, log);
     print := fun _ log => (None, log) |}.




(** The env file of [test_load_env_defaults_reads_values]. *)
Definition env_values : gmap pystr (option pystr) :=
  <[lit "client_id" := Some (lit "abc")]>
    (<[lit "client_secret" := Some (lit "secret")]>
       (<[lit "redirect_uri" := Some (lit "https://example.com/cb")]>
          (<[lit "discovery_url" :=
               Some (lit "https://login.microsoftonline.com/custom-tenant/v2.0/.well-known/openid-configuration")]>
             ∅))).

(** [_make_args] with its default values, four of them overridden. *)
Definition make_args (authorization_code code_verifier client_secret
                      client_credentials_scope : option pystr) : Args.t :=
  {| Args.client_id := Some (lit "client");
     Args.client_secret := client_secret;
     Args.redirect_uri := Some (lit "https://example.com/cb");
     Args.env_file := lit ".env";
     Args.discovery_url :=
       Some (lit "https://login.microsoftonline.com/tenant/v2.0/.well-known/openid-configuration");
     Args.tenant_id := lit "tenant";
     Args.timeout := 5;
     Args.client_credentials_scope := client_credentials_scope;
     Args.authorization_code := authorization_code;
     Args.non_interactive := true;
     Args.open_browser := false;
     Args.state := Some (lit "none");
     Args.scope := lit "openid offline_access";
     Args.response_mode := lit "query";
     Args.response_type := lit "code";
     Args.refresh_token := None;
     Args.access_token := None;
     Args.disable_pkce := false;
     Args.code_verifier := code_verifier;
     Args.public_client := None |}.

(** The same run with [--public-client] or [--no-public-client]. *)
Definition with_public_client (flag : bool) (a : Args.t) : Args.t :=
  {| Args.client_id := Args.client_id a;
     Args.client_secret := Args.client_secret a;
     Args.redirect_uri := Args.redirect_uri a;
     Args.env_file := Args.env_file a;
     Args.discovery_url := Args.discovery_url a;
     Args.tenant_id := Args.tenant_id a;
     Args.timeout := Args.timeout a;
     Args.client_credentials_scope := Args.client_credentials_scope a;
     Args.authorization_code := Args.authorization_code a;
     Args.non_interactive := Args.non_interactive a;
     Args.open_browser := Args.open_browser a;
     Args.state := Args.state a;
     Args.scope := Args.scope a;
     Args.response_mode := Args.response_mode a;
     Args.response_type := Args.response_type a;
     Args.refresh_token := Args.refresh_token a;
     Args.access_token := Args.access_token a;
     Args.disable_pkce := Args.disable_pkce a;
     Args.code_verifier := Args.code_verifier a;
     Args.public_client := Some flag |}.

End Stub.

(** * Properties *)

(** ** Known-answer checks of the library models *)

Example b64encode_foobar :
  Base64.b64encode (list_byte_of_string "foobar") = list_byte_of_string "Zm9vYmFy"
  /\ Base64.b64encode (list_byte_of_string "fooba") = list_byte_of_string "Zm9vYmE="
  /\ Base64.b64encode (list_byte_of_string "foob") = list_byte_of_string "Zm9vYg==".
Proof. repeat split; reflexivity. Qed.

Example sha256_constants :
  nth 0 SHA256.K 0%N = 0x428a2f98%N /\ nth 63 SHA256.K 0%N = 0xc67178f2%N
  /\ length SHA256.K = 64 /\ nth 0 SHA256.H0 0%N = 0x6a09e667%N
  /\ nth 7 SHA256.H0 0%N = 0x5be0cd19%N.
Proof. vm_compute. repeat split; reflexivity. Qed.

Example sha256_known_answers :
  hexdigest (SHA256.sha256 []) =
    "e3b0c44298fc1c149afbf4c8996fb92427ae41e4649b934ca495991b7852b855"%string
  /\ hexdigest (SHA256.sha256 (list_byte_of_string "foobar")) =
    "c3ab8ff13720e8ad9047dd39466b3c8974e592c2fa383d4a3960714caef0c4f2"%string
  /\ hexdigest (SHA256.sha256 (repeat "a"%byte 56)) =
    "b35439a4ac6f0948b6d6f9e3c6af0f5f590ce20f1bde7090ef7970686ec6738a"%string
  /\ hexdigest (SHA256.sha256 (repeat "a"%byte 119)) =
    "31eba51c313a5c08226adf18d4a359cfdfd8d2e816b13f4af952f7ea6584dcfb"%string.
Proof. vm_compute. repeat split; reflexivity. Qed.

Example code_challenge_test :
  _code_challenge (lit "test") = Return (lit "n4bQgYhMfWWaL-qgxVrQFaO_TxsrC4Is0V1sFbDwCgg").
Proof. vm_compute. reflexivity. Qed.

Example urlparse_known_answers :
  Url.urlparse Stub.lib (lit "  https://EXAMPLE.com:80/a;b/c;d?x=1#frag ") =
    Return {| Url.scheme := lit "https"; Url.netloc := lit "EXAMPLE.com:80";
              Url.path := lit "/a;b/c"; Url.params := lit "d";
              Url.query := lit "x=1"; Url.fragment := lit "frag " |}
  /\ Url.urlparse Stub.lib (lit "mailto:a@b.c;d?code=1") =
    Return {| Url.scheme := lit "mailto"; Url.netloc := [];
              Url.path := lit "a@b.c;d"; Url.params := [];
              Url.query := lit "code=1"; Url.fragment := [] |}
  /\ Url.urlparse Stub.lib (lit "http://[::1/x") =
    Raise (ValueError (lit "Invalid IPv6 URL")).
Proof. vm_compute. repeat split; reflexivity. Qed.

Example parse_qs_known_answers :
  Url.parse_qs (lit "c%6Fde=Z&code=&x") !! lit "code" = Some [lit "Z"]
  /\ Url.parse_qs (lit "code=a&code=1+2%20%41") !! lit "code" =
       Some [lit "a"; lit "1 2 A"]
  /\ Url.parse_qs (lit "code=%C3%A9%FF") !! lit "code" = Some [[233; 0xFFFD]%N]
  /\ Url.parse_qs (lit "state=xyz") !! lit "code" = None.
Proof. vm_compute. repeat split; reflexivity. Qed.

Example strip_known_answer :
  strip [32; 9; 0x85; 97; 0xA0; 98; 0x3000; 0x1F]%N = [97; 0xA0; 98]%N.
Proof. reflexivity. Qed.

(** The three runs of tests/test_entra_test_cli.py on the stubs. *)
Example report_requires_pkce_verifier :
  let o := handle_report Stub.lib Stub.world
             (Stub.make_args (Some (lit "https://example.com/cb?code=abc123"))
                             None (Some (lit "secret")) None) [] in
  map status (entries o) = ["PASS"; "PASS"; "SKIP"; "FAIL"; "SKIP"; "SKIP"; "SKIP"]%string
  /\ exit_status o = 1%Z.
Proof. vm_compute. split; reflexivity. Qed.

Example report_succeeds_with_code_and_verifier :
  let o := handle_report Stub.lib Stub.world
             (Stub.make_args (Some (lit "https://example.com/cb?code=abc123"))
                             (Some (lit "verifier")) (Some (lit "secret"))
                             (Some (lit "api://app/.default"))) [] in
  map status (entries o) = ["PASS"; "PASS"; "PASS"; "PASS"; "PASS"; "PASS"; "PASS"]%string
  /\ exit_status o = 0%Z.
Proof. vm_compute. split; reflexivity. Qed.

Example report_public_client_skips_secret :
  let o := handle_report Stub.lib Stub.world
             (Stub.make_args (Some (lit "https://example.com/cb?code=abc123"))
                             (Some (lit "verifier")) None None) [] in
  exit_status o = 0%Z
  /\ (req_data <$> world (final o) !! 1%nat) =
       Some (Some (lit "client_id=client&grant_type=authorization_code&code=abc123&redirect_uri=https%3A%2F%2Fexample.com%2Fcb&scope=openid%20offline_access&code_verifier=verifier")).
Proof. vm_compute. split; reflexivity. Qed.

(** ** Strings: stripping *)

Section Strip.
Variable p : N -> bool.

Lemma rstrip_by_keep (s : pystr) :
  forallb (fun c => negb (p c)) s = true -> rstrip_by p s = s.
Proof.
  induction s as [|c s IH]; simpl; [reflexivity|].
  intros [Hc Hs]%andb_prop. rewrite (IH Hs).
  destruct s; [|reflexivity].
  apply negb_true_iff in Hc. now rewrite Hc.
Qed.

Lemma rstrip_by_all (s : pystr) :
  forallb p s = true -> rstrip_by p s = [].
Proof.
  induction s as [|c s IH]; simpl; [reflexivity|].
  intros [Hc Hs]%andb_prop. now rewrite (IH Hs), Hc.
Qed.

Lemma rstrip_by_app (s t : pystr) :
  forallb p t = true -> rstrip_by p (s ++ t) = rstrip_by p s.
Proof.
  intros Ht. induction s as [|c s IH]; simpl.
  - now apply rstrip_by_all.
  - now rewrite IH.
Qed.

Lemma lstrip_by_all (s : pystr) :
  forallb p s = true -> lstrip_by p s = [].
Proof.
  induction s as [|c s IH]; simpl; [reflexivity|].
  intros [Hc Hs]%andb_prop. now rewrite Hc, (IH Hs).
Qed.
End Strip.

(** ** base64: the library encoder against the bit-level definition *)

Ltac n_divmod :=
  apply N2Z.inj;
  repeat first [rewrite N2Z.inj_mod | rewrite N2Z.inj_div
               | rewrite N2Z.inj_add | rewrite N2Z.inj_mul];
  cbn [Z.of_N]; Z.div_mod_to_equations; lia.

Section Base64Facts.
Import Base64 PkceSpec.
Local Open Scope N_scope.

Lemma byte_bound (b : byte) : Byte.to_N b < 256.
Proof. destruct b; reflexivity. Qed.

(** The translated standard alphabet is the URL-safe alphabet, every
    character of which is ASCII, unreserved and different from the pad. *)
Lemma alphabet_table (i : nat) :
  (i < 64)%nat ->
  let c := Byte.to_N (urlsafe_translate (nth i std_alphabet pad_byte)) in
  c = nth i url_alphabet 0 /\ (c <? 128) = true
  /\ unreserved c = true /\ contains c (lit "=") = false.
Proof.
  intros Hi.
  do 64 (destruct i as [|i]; [vm_compute; repeat split; reflexivity |]).
  lia.
Qed.

Lemma sextet_bound t k : (N.to_nat (sextet t k) < 64)%nat.
Proof.
  unfold sextet.
  assert ((t / 2 ^ k) mod 64 < 64) by (apply N.mod_lt; discriminate). lia.
Qed.

Lemma enc_url t k :
  Byte.to_N (urlsafe_translate (enc std_alphabet t k)) = url_char (sextet t k).
Proof. apply (alphabet_table _ (sextet_bound t k)). Qed.

Lemma url_char_facts (i : N) :
  i < 64 ->
  (url_char i <? 128) = true /\ unreserved (url_char i) = true
  /\ contains (url_char i) (lit "=") = false.
Proof.
  intros Hi. unfold url_char.
  assert (Hn : (N.to_nat i < 64)%nat) by lia.
  destruct (alphabet_table _ Hn) as (E & H1 & H2 & H3).
  cbv zeta in *. rewrite <- E. auto.
Qed.

(** The four sextets of a quantum, byte by byte. *)
Lemma sextets_of_quantum (a b c : byte) :
  let q := quantum a b c in
  sextet q 18 = Byte.to_N a / 4
  /\ sextet q 12 = (Byte.to_N a mod 4) * 16 + Byte.to_N b / 16
  /\ sextet q 6 = (Byte.to_N b mod 16) * 4 + Byte.to_N c / 64
  /\ sextet q 0 = Byte.to_N c mod 64.
Proof.
  pose proof (byte_bound a). pose proof (byte_bound b). pose proof (byte_bound c).
  unfold quantum, sextet. cbv zeta.
  change (2 ^ 16) with 65536. change (2 ^ 8) with 256.
  change (2 ^ 18) with 262144. change (2 ^ 12) with 4096.
  change (2 ^ 6) with 64. change (2 ^ 0) with 1.
  generalize dependent (Byte.to_N a). generalize dependent (Byte.to_N b).
  generalize dependent (Byte.to_N c). intros z Hz y Hy x Hx.
  repeat split; n_divmod.
Qed.

(** The same four numbers read off the bits of the bytes. *)
Lemma bits_hi6 (a : byte) :
  let n := Byte.to_N a in
  32 * N.b2n (N.testbit n 7) + 16 * N.b2n (N.testbit n 6)
  + 8 * N.b2n (N.testbit n 5) + 4 * N.b2n (N.testbit n 4)
  + 2 * N.b2n (N.testbit n 3) + N.b2n (N.testbit n 2) = n / 4.
Proof. destruct a; reflexivity. Qed.

Lemma bits_lo2 (a : byte) :
  let n := Byte.to_N a in
  2 * N.b2n (N.testbit n 1) + N.b2n (N.testbit n 0) = n mod 4.
Proof. destruct a; reflexivity. Qed.

Lemma bits_hi4 (a : byte) :
  let n := Byte.to_N a in
  8 * N.b2n (N.testbit n 7) + 4 * N.b2n (N.testbit n 6)
  + 2 * N.b2n (N.testbit n 5) + N.b2n (N.testbit n 4) = n / 16.
Proof. destruct a; reflexivity. Qed.

Lemma bits_lo4 (a : byte) :
  let n := Byte.to_N a in
  8 * N.b2n (N.testbit n 3) + 4 * N.b2n (N.testbit n 2)
  + 2 * N.b2n (N.testbit n 1) + N.b2n (N.testbit n 0) = n mod 16.
Proof. destruct a; reflexivity. Qed.

Lemma bits_hi2 (a : byte) :
  let n := Byte.to_N a in
  2 * N.b2n (N.testbit n 7) + N.b2n (N.testbit n 6) = n / 64.
Proof. destruct a; reflexivity. Qed.

Lemma bits_lo6 (a : byte) :
  let n := Byte.to_N a in
  32 * N.b2n (N.testbit n 5) + 16 * N.b2n (N.testbit n 4)
  + 8 * N.b2n (N.testbit n 3) + 4 * N.b2n (N.testbit n 2)
  + 2 * N.b2n (N.testbit n 1) + N.b2n (N.testbit n 0) = n mod 64.
Proof. destruct a; reflexivity. Qed.

Lemma bits_value6 b0 b1 b2 b3 b4 b5 :
  bits_value [b0; b1; b2; b3; b4; b5] =
  32 * N.b2n b0 + 16 * N.b2n b1 + 8 * N.b2n b2 + 4 * N.b2n b3
  + 2 * N.b2n b4 + N.b2n b5.
Proof. unfold bits_value. cbn [fold_left]. lia. Qed.

Lemma url_char_eq x y : x = y -> nth (N.to_nat x) url_alphabet 0 = url_char y.
Proof. now intros ->. Qed.

Lemma encoded_three a b c rest :
  encoded (a :: b :: c :: rest) = quad a b c ++ encoded rest.
Proof.
  unfold encoded, urlsafe_b64encode. cbn [b64encode].
  rewrite !map_app. cbn [map app]. now rewrite !enc_url.
Qed.

Lemma encoded_two a b :
  encoded [a; b] = firstn 3 (quad a b x00) ++ [chr "="].
Proof.
  unfold encoded, urlsafe_b64encode. cbn [b64encode map].
  now rewrite !enc_url.
Qed.

Lemma encoded_one a :
  encoded [a] = firstn 2 (quad a x00 x00) ++ [chr "="; chr "="].
Proof.
  unfold encoded, urlsafe_b64encode. cbn [b64encode map].
  now rewrite !enc_url.
Qed.

Lemma nopad_three a b c rest :
  base64url_nopad (a :: b :: c :: rest) = quad a b c ++ base64url_nopad rest.
Proof.
  destruct (sextets_of_quantum a b c) as (E1 & E2 & E3 & E4).
  unfold base64url_nopad, quad. cbn [map concat byte_bits app sextets].
  rewrite !bits_value6.
  pose proof (bits_hi6 a) as A6. pose proof (bits_lo2 a) as A2.
  pose proof (bits_hi4 b) as B4. pose proof (bits_lo4 b) as B4'.
  pose proof (bits_hi2 c) as C2. pose proof (bits_lo6 c) as C6.
  cbv zeta in *. cbn [app].
  repeat (apply (f_equal2 cons); [apply url_char_eq; lia |]).
  reflexivity.
Qed.

Lemma nopad_two a b : base64url_nopad [a; b] = firstn 3 (quad a b x00).
Proof.
  destruct (sextets_of_quantum a b x00) as (E1 & E2 & E3 & _).
  change (Byte.to_N x00 / 64) with 0 in E3.
  unfold base64url_nopad, quad.
  cbn [map concat byte_bits app sextets firstn repeat].
  rewrite !bits_value6.
  pose proof (bits_hi6 a) as A6. pose proof (bits_lo2 a) as A2.
  pose proof (bits_hi4 b) as B4. pose proof (bits_lo4 b) as B4'.
  cbv zeta in *. cbn [N.b2n].
  repeat (apply (f_equal2 cons); [apply url_char_eq; lia |]).
  reflexivity.
Qed.

Lemma nopad_one a : base64url_nopad [a] = firstn 2 (quad a x00 x00).
Proof. destruct a; reflexivity. Qed.

Lemma quad_plain a b c : forallb plain (quad a b c) = true.
Proof.
  unfold quad. cbv zeta. cbn [forallb]. unfold plain.
  repeat match goal with
         | |- context [url_char (sextet ?q ?k)] =>
             let H := fresh in
             assert (H : sextet q k < 64)
               by (pose proof (sextet_bound q k); lia);
             destruct (url_char_facts _ H) as (-> & -> & ->); clear H
         end.
  reflexivity.
Qed.

Lemma firstn_plain n (s : pystr) :
  forallb plain s = true -> forallb plain (firstn n s) = true.
Proof.
  revert n. induction s as [|c s IH]; intros [|n]; simpl; auto.
  intros [-> Hs]%andb_prop. now apply IH.
Qed.

Lemma bytes_ind3 (P : bytes -> Prop) :
  P [] -> (forall a, P [a]) -> (forall a b, P [a; b]) ->
  (forall a b c rest, P rest -> P (a :: b :: c :: rest)) ->
  forall s, P s.
Proof.
  intros H0 H1 H2 H3. fix IH 1.
  intros [|a [|b [|c rest]]]; [exact H0 | apply H1 | apply H2 |].
  apply H3, IH.
Qed.

Lemma nopad_plain s : forallb plain (base64url_nopad s) = true.
Proof.
  induction s as [|a|a b|a b c rest IH] using bytes_ind3.
  - reflexivity.
  - rewrite nopad_one. apply firstn_plain, quad_plain.
  - rewrite nopad_two. apply firstn_plain, quad_plain.
  - rewrite nopad_three, forallb_app, quad_plain, IH. reflexivity.
Qed.

(** The encoder's output is the unpadded encoding followed by padding. *)
Lemma encoded_shape s :
  exists k, encoded s = base64url_nopad s ++ repeat (chr "=") k.
Proof.
  induction s as [|a|a b|a b c rest [k IH]] using bytes_ind3.
  - now exists 0%nat.
  - exists 2%nat. now rewrite encoded_one, nopad_one.
  - exists 1%nat. now rewrite encoded_two, nopad_two.
  - exists k. now rewrite encoded_three, nopad_three, IH, app_assoc.
Qed.

Lemma encoded_whole (m : nat) : forall s,
  length s = (3 * m)%nat ->
  encoded s = base64url_nopad s /\ length (base64url_nopad s) = (4 * m)%nat.
Proof.
  induction m as [|m IH]; intros s Hlen.
  - destruct s; [now split | discriminate].
  - destruct s as [|a [|b [|c rest]]]; simpl in Hlen; try lia.
    destruct (IH rest) as [E L]; [lia|].
    rewrite encoded_three, nopad_three, E. split; [reflexivity|].
    rewrite length_app, L. simpl. lia.
Qed.
End Base64Facts.

(** ** PKCE: verifier and challenge *)

Section Pkce.
Import Base64 PkceSpec.

Lemma decode_ascii_ok (bs : bytes) :
  isascii (map Byte.to_N bs) = true ->
  decode_ascii bs = Return (map Byte.to_N bs).
Proof. intros H. unfold decode_ascii. cbv zeta. now rewrite H. Qed.

Lemma encode_ascii_ok (s : pystr) :
  isascii s = true -> encode_ascii s = Return (map byte_of_N s).
Proof. intros H. unfold encode_ascii. now rewrite H. Qed.

Lemma forallb_impl {A} (p q : A -> bool) (l : list A) :
  (forall x, p x = true -> q x = true) ->
  forallb p l = true -> forallb q l = true.
Proof.
  intros Hpq. induction l as [|x l IH]; simpl; [reflexivity|].
  intros [Hx Hl]%andb_prop. now rewrite (Hpq _ Hx), (IH Hl).
Qed.

Lemma plain_inv c :
  plain c = true ->
  (c <? 128)%N = true /\ unreserved c = true
  /\ contains c (lit "=") = false.
Proof.
  unfold plain. intros [[H1 H2]%andb_prop H3]%andb_prop.
  now apply negb_true_iff in H3.
Qed.

Lemma pads_are_pad k :
  forallb (fun c => contains c (lit "=")) (repeat (chr "=") k) = true.
Proof. induction k; simpl; [reflexivity | exact IHk]. Qed.

Lemma encoded_ascii s : isascii (encoded s) = true.
Proof.
  destruct (encoded_shape s) as [k ->]. unfold isascii.
  rewrite forallb_app. apply andb_true_intro. split.
  - eapply forallb_impl; [|apply nopad_plain]. intros c Hc.
    now apply plain_inv in Hc.
  - induction k; simpl; [reflexivity | exact IHk].
Qed.

(** [urlsafe_b64encode(s).decode("ascii").rstrip("=")] is the unpadded
    base64url encoding of [s]. *)
Lemma urlsafe_rstrip_is_nopad (s : bytes) :
  decode_ascii (urlsafe_b64encode s) = Return (encoded s)
  /\ rstrip_chars (lit "=") (encoded s) = base64url_nopad s.
Proof.
  split.
  - apply decode_ascii_ok, encoded_ascii.
  - destruct (encoded_shape s) as [k ->]. unfold rstrip_chars.
    rewrite rstrip_by_app by apply pads_are_pad.
    apply rstrip_by_keep.
    eapply forallb_impl; [|apply nopad_plain]. intros c Hc.
    apply plain_inv in Hc. destruct Hc as (_ & _ & ->). reflexivity.
Qed.

Lemma code_challenge_ascii (v : pystr) :
  isascii v = true ->
  _code_challenge v =
    Return (base64url_nopad (SHA256.sha256 (map byte_of_N v))).
Proof.
  intros Hv. unfold _code_challenge. rewrite (encode_ascii_ok _ Hv).
  cbn [bind].
  destruct (urlsafe_rstrip_is_nopad (SHA256.sha256 (map byte_of_N v)))
    as [E1 E2].
  rewrite E1. cbn [bind]. now rewrite E2.
Qed.

Lemma generate_code_verifier_eq (length : Z) (token : bytes) :
  _generate_code_verifier length token =
    Return (firstn 128
              (let v := base64url_nopad token in
               if (Datatypes.length v <? 43)%nat
               then v ++ repeat (chr "A") (43 - Datatypes.length v)
               else v)).
Proof.
  unfold _generate_code_verifier.
  destruct (urlsafe_rstrip_is_nopad token) as [E1 E2].
  rewrite E1. cbn [bind]. now rewrite E2.
Qed.
End Pkce.

(** C4. For every ASCII verifier, [_code_challenge] returns the unpadded
    base64url encoding of the SHA-256 digest of the verifier's bytes; for
    the verifier "test" that is the literal
    n4bQgYhMfWWaL-qgxVrQFaO_TxsrC4Is0V1sFbDwCgg. *)
Theorem code_challenge_is_base64url_sha256 (v : pystr) :
  isascii v = true ->
  _code_challenge v =
    Return (PkceSpec.base64url_nopad (SHA256.sha256 (map byte_of_N v)))
  /\ _code_challenge (lit "test") =
       Return (lit "n4bQgYhMfWWaL-qgxVrQFaO_TxsrC4Is0V1sFbDwCgg").
Proof.
  intros Hv. split.
  - now apply code_challenge_ascii.
  - vm_compute. reflexivity.
Qed.

Lemma code_challenge_is_base64url_sha256_witness :
  isascii (lit "verifier") = true
  /\ (_code_challenge (lit "verifier") =
        Return (PkceSpec.base64url_nopad
                  (SHA256.sha256 (map byte_of_N (lit "verifier"))))
      /\ _code_challenge (lit "test") =
           Return (lit "n4bQgYhMfWWaL-qgxVrQFaO_TxsrC4Is0V1sFbDwCgg")).
Proof.
  split; [reflexivity|].
  exact (code_challenge_is_base64url_sha256 (lit "verifier") eq_refl).
Defined.

(** C8. Whatever bytes the random source delivers, the verifier returned by
    [_generate_code_verifier] has between 43 and 128 characters, all of them
    unreserved characters of RFC 7636. *)
Theorem generated_verifier_is_legal (length : Z) (token : bytes) :
  exists v, _generate_code_verifier length token = Return v
            /\ (43 <= Datatypes.length v <= 128)%nat
            /\ forallb PkceSpec.unreserved v = true.
Proof.
  rewrite generate_code_verifier_eq. eexists. split; [reflexivity|].
  cbv zeta. set (v := PkceSpec.base64url_nopad token).
  assert (Hv : forallb PkceSpec.unreserved v = true).
  { eapply forallb_impl; [|apply nopad_plain]. intros c Hc.
    now apply plain_inv in Hc. }
  destruct (Nat.ltb_spec (Datatypes.length v) 43) as [Hlt|Hge].
  - split.
    + rewrite length_firstn, length_app, repeat_length. lia.
    + rewrite firstn_all2 by (rewrite length_app, repeat_length; lia).
      rewrite forallb_app, Hv. simpl.
      induction (43 - Datatypes.length v)%nat; simpl; [reflexivity | assumption].
  - split.
    + rewrite length_firstn. lia.
    + rewrite <- (firstn_skipn 128 v), forallb_app in Hv.
      now apply andb_prop in Hv.
Qed.

(** C10. With the 48 bytes of [secrets.token_bytes(48)], the verifier has
    exactly 64 characters, and the [length] argument has no effect on it. *)
Theorem generated_verifier_ignores_length (length : Z) (token : bytes) :
  Datatypes.length token = 48%nat ->
  (exists v, _generate_code_verifier length token = Return v
             /\ Datatypes.length v = 64%nat)
  /\ forall length' : Z,
       _generate_code_verifier length' token =
       _generate_code_verifier length token.
Proof.
  intros Htoken. split.
  - rewrite generate_code_verifier_eq. eexists. split; [reflexivity|].
    destruct (encoded_whole 16 token Htoken) as [_ L]. cbv zeta.
    change (4 * 16)%nat with 64%nat in L.
    destruct (Nat.ltb_spec (Datatypes.length (PkceSpec.base64url_nopad token)) 43);
      [lia|].
    rewrite firstn_all2 by lia. exact L.
  - intros length'. now rewrite !generate_code_verifier_eq.
Qed.

Lemma generated_verifier_ignores_length_witness :
  Datatypes.length (repeat x00 48) = 48%nat
  /\ (exists v, _generate_code_verifier 43 (repeat x00 48) = Return v
                /\ Datatypes.length v = 64%nat)
  /\ forall length' : Z,
       _generate_code_verifier length' (repeat x00 48) =
       _generate_code_verifier 43 (repeat x00 48).
Proof.
  split; [reflexivity|].
  exact (generated_verifier_ignores_length 43 (repeat x00 48) eq_refl).
Defined.

(** ** The report run *)

Section ReportFacts.
Variable L : Lib.
Context {W : Type}.
Variable X : World W.

(** *** Which context keys each step body may write *)

Lemma writes_ret {A} keys (a : A) : writes_only (W := W) keys (ret a).
Proof. intros s k _. reflexivity. Qed.

Lemma writes_raise {A} keys e : writes_only (W := W) (A := A) keys (raise e).
Proof. intros s k _. reflexivity. Qed.

Lemma writes_pass {A} keys b : writes_only (W := W) (A := A) keys (pass b).
Proof. intros s k _. reflexivity. Qed.

Lemma writes_lift {A} keys (r : result A) : writes_only (W := W) keys (lift r).
Proof. intros s k _. reflexivity. Qed.

Lemma writes_world_call {A} keys (f : W -> A * W) :
  writes_only keys (world_call f).
Proof. intros s k _. unfold world_call. now destruct (f (world s)). Qed.

Lemma writes_ctx_get keys key : writes_only (W := W) keys (ctx_get key).
Proof. intros s k _. reflexivity. Qed.

Lemma writes_ctx_has keys key : writes_only (W := W) keys (ctx_has key).
Proof. intros s k _. reflexivity. Qed.

Lemma writes_ctx_set keys key v :
  key ∈ keys -> writes_only (W := W) keys (ctx_set key v).
Proof.
  intros Hin s k Hk. cbn. apply lookup_insert_ne. intros ->. now apply Hk.
Qed.

Lemma writes_and_then {A B} keys (m : step A) (f : A -> step B) :
  writes_only (W := W) keys m -> (forall a, writes_only keys (f a)) ->
  writes_only keys (and_then m f).
Proof.
  intros Hm Hf s k Hk. unfold and_then.
  specialize (Hm s k Hk). destruct (m s) as [[a|e|b] s']; cbn in *.
  - now rewrite (Hf a s' k Hk).
  - exact Hm.
  - exact Hm.
Qed.

Ltac frame :=
  repeat first
    [ apply writes_ret | apply writes_raise | apply writes_pass
    | apply writes_lift
    | apply writes_world_call | apply writes_ctx_get | apply writes_ctx_has
    | apply writes_ctx_set; set_solver
    | apply writes_and_then; [| intros ?]
    | match goal with
      | |- writes_only _ (if ?b then _ else _) => destruct b
      | |- writes_only _ (match ?x with _ => _ end) => destruct x
      end
    | progress unfold _execute, _get, _post_form, call_print, call_input ].

Lemma call_print_writes keys text : writes_only keys (call_print X text).
Proof. frame. Qed.

Lemma print_entries_writes keys es : writes_only keys (print_entries L X es).
Proof.
  induction es as [|e es IH]; cbn [print_entries]; [apply writes_ret|].
  unfold print_entry. frame. exact IH.
Qed.

(** *** Which exceptions pass through a step body *)

Lemma passes_ret {A} Q (a : A) : passes (W := W) Q (ret a).
Proof. intros s b H. discriminate H. Qed.

Lemma passes_raise {A} Q e : passes (W := W) (A := A) Q (raise e).
Proof. intros s b H. discriminate H. Qed.

Lemma passes_pass {A} (Q : base_exn -> Prop) b :
  Q b -> passes (W := W) (A := A) Q (pass b).
Proof. intros HQ s b' [= <-]. exact HQ. Qed.

Lemma passes_lift {A} Q (r : result A) : passes (W := W) Q (lift r).
Proof. intros s b H. destruct r; discriminate H. Qed.

Lemma passes_world_call {A} Q (f : W -> A * W) : passes Q (world_call f).
Proof.
  intros s b. unfold world_call. destruct (f (world s)). discriminate.
Qed.

Lemma passes_ctx_get Q key : passes (W := W) Q (ctx_get key).
Proof. intros s b H. discriminate H. Qed.

Lemma passes_ctx_has Q key : passes (W := W) Q (ctx_has key).
Proof. intros s b H. discriminate H. Qed.

Lemma passes_ctx_set Q key v : passes (W := W) Q (ctx_set key v).
Proof. intros s b H. discriminate H. Qed.

Lemma passes_and_then {A B} Q (m : step A) (f : A -> step B) :
  passes (W := W) Q m -> (forall a, passes Q (f a)) -> passes Q (and_then m f).
Proof.
  intros Hm Hf s b. unfold and_then. specialize (Hm s).
  destruct (m s) as [[a|e|b'] s']; cbn in *.
  - apply Hf.
  - discriminate.
  - intros [= <-]. now apply Hm.
Qed.

Lemma passes_impl {A} (Q Q' : base_exn -> Prop) (m : step A) :
  passes (W := W) Q m -> (forall b, Q b -> Q' b) -> passes Q' m.
Proof. intros Hm HQ s b H. apply HQ. now apply (Hm s). Qed.

(** What passes through [input] is the [KeyboardInterrupt] of a user who
    presses Ctrl-C. *)
Lemma call_input_passes prompt :
  passes (fun b => b = KeyboardInterrupt
                   /\ exists p w', fst (input X p w') = CtrlC)
         (call_input X prompt).
Proof.
  intros s b. unfold call_input, and_then, world_call.
  destruct (input X prompt (world s)) as [[line|e|] w'] eqn:E; cbn;
    [discriminate | discriminate |].
  intros [= <-]. split; [reflexivity|]. exists prompt, (world s). now rewrite E.
Qed.

Ltac contain :=
  repeat first
    [ match goal with
      | |- passes _ (call_input _ _) =>
          eapply passes_impl;
          [ apply call_input_passes
          | intros ? [? ?]; repeat split; assumption ]
      end
    | apply passes_ret | apply passes_raise | apply passes_lift
    | apply passes_world_call | apply passes_ctx_get | apply passes_ctx_has
    | apply passes_ctx_set
    | apply passes_pass; repeat split; solve [reflexivity | assumption]
    | apply passes_and_then; [| intros ?]
    | match goal with
      | |- passes _ (if ?b then _ else _) => destruct b eqn:?
      | |- passes _ (match ?x with _ => _ end) => destruct x
      end
    | progress unfold _execute, _get, _post_form, call_print ].

Lemma call_print_contained text :
  passes (fun _ => False) (call_print X text).
Proof. contain. Qed.

Lemma print_entries_contained es :
  passes (fun _ => False) (print_entries L X es).
Proof.
  induction es as [|e es IH]; cbn [print_entries]; [apply passes_ret|].
  unfold print_entry. contain. exact IH.
Qed.

Variable args : Args.t.

Lemma step_config_writes : writes_only (W := W) [] (step_config L args).
Proof. unfold step_config. frame. Qed.

Lemma step_discovery_writes : writes_only [] (step_discovery L X args).
Proof. unfold step_discovery. frame. Qed.

Lemma step_client_credentials_writes :
  writes_only [lit "client_credentials"] (step_client_credentials L X args).
Proof. unfold step_client_credentials. frame. Qed.

Lemma step_refresh_writes :
  writes_only [lit "refresh_tokens"] (step_refresh L X args).
Proof. unfold step_refresh. frame. Qed.

Lemma step_userinfo_writes : writes_only [] (step_userinfo L X args).
Proof. unfold step_userinfo. frame. Qed.

(** Only the prompt of the authorization step lets an exception through
    that [run_step] does not catch. *)
Lemma step_config_contained :
  passes (W := W) (fun _ => False) (step_config L args).
Proof. unfold step_config. contain. Qed.

Lemma step_discovery_contained :
  passes (fun _ => False) (step_discovery L X args).
Proof. unfold step_discovery. contain. Qed.

Lemma step_client_credentials_contained :
  passes (fun _ => False) (step_client_credentials L X args).
Proof. unfold step_client_credentials. contain. Qed.

Lemma step_token_contained : passes (fun _ => False) (step_token L X args).
Proof. unfold step_token. contain. Qed.

Lemma step_refresh_contained : passes (fun _ => False) (step_refresh L X args).
Proof. unfold step_refresh. contain. Qed.

Lemma step_userinfo_contained : passes (fun _ => False) (step_userinfo L X args).
Proof. unfold step_userinfo. contain. Qed.

Lemma step_authorization_passes :
  passes (fun b => b = KeyboardInterrupt
                   /\ (exists p w', fst (input X p w') = CtrlC)
                   /\ truthy_opt (Args.authorization_code args) = false
                   /\ Args.non_interactive args = false)
         (step_authorization L X args).
Proof. unfold step_authorization. contain. Qed.


(** *** The runner *)

Lemma run_step_eq nm (func : @step W pystr) (s : Session) es :
  run_step nm func (s, es) =
    (match fst (func s) with
     | Passed b => Passed b
     | _ => Returned tt
     end,
     (snd (func s), es ++ entry_of nm (fst (func s)))).
Proof. unfold run_step. cbn. now destruct (func s). Qed.

(** A body through which nothing passes is followed by the next call. *)
Lemma run_step_then nm (func : @step W pystr)
    (k : unit -> prog (Session * list ReportEntry) unit) s es :
  passes (fun _ => False) func ->
  and_then (run_step nm func) k (s, es) =
    k tt (snd (func s), es ++ entry_of nm (fst (func s))).
Proof.
  intros Hc. unfold and_then. rewrite run_step_eq.
  specialize (Hc s). destruct (fst (func s)) as [d|e|b]; try reflexivity.
  destruct (Hc b eq_refl).
Qed.

Lemma entry_of_single nm (func : @step W pystr) s :
  passes (fun _ => False) func ->
  exists e, entry_of nm (fst (func s)) = [e] /\ name e = nm.
Proof.
  intros Hc. specialize (Hc s). destruct (fst (func s)) as [d|e|b].
  - eexists. split; reflexivity.
  - destruct e; eexists; split; reflexivity.
  - destruct (Hc b eq_refl).
Qed.


(** The seven calls of [run_step], step by step: each body starts from
    the session its predecessor left; an interrupted prompt ends them
    after three entries. *)
Lemma run_steps_chain (w : W) :
  let s0 := {| context := initial_context args; world := w |} in
  let s1 := snd (step_config L args s0) in
  let s2 := snd (step_discovery L X args s1) in
  let s3 := snd (step_client_credentials L X args s2) in
  let s4 := snd (step_authorization L X args s3) in
  let s5 := snd (step_token L X args s4) in
  let s6 := snd (step_refresh L X args s5) in
  let s7 := snd (step_userinfo L X args s6) in
  let before :=
    entry_of (lit "Load configuration from " ++ Args.env_file args)
             (fst (step_config L args s0))
    ++ entry_of (lit "Fetch OIDC discovery metadata")
                (fst (step_discovery L X args s1))
    ++ entry_of (lit "Client credentials grant")
                (fst (step_client_credentials L X args s2)) in
  let after :=
    entry_of (lit "Exchange authorization code for tokens")
             (fst (step_token L X args s4))
    ++ entry_of (lit "Refresh token exchange")
                (fst (step_refresh L X args s5))
    ++ entry_of (lit "Userinfo endpoint call")
                (fst (step_userinfo L X args s6)) in
  run_steps L X args (s0, []) =
    match fst (step_authorization L X args s3) with
    | Passed b => (Passed b, (s4, before))
    | r => (Returned tt,
            (s7, before ++ entry_of (lit "Authorization code capture") r
                 ++ after))
    end.
Proof.
  cbv zeta. unfold run_steps.
  rewrite run_step_then by apply step_config_contained.
  rewrite run_step_then by apply step_discovery_contained.
  rewrite run_step_then by apply step_client_credentials_contained.
  unfold and_then at 1. rewrite run_step_eq.
  cbn [app]. rewrite <- !app_assoc.
  destruct (fst (step_authorization L X args _)) as [d|e|b] eqn:E4.
  - rewrite run_step_then by apply step_token_contained.
    rewrite run_step_then by apply step_refresh_contained.
    rewrite run_step_eq.
    pose proof (step_userinfo_contained) as Hu.
    match goal with
    | |- context [fst (step_userinfo L X args ?s)] =>
        specialize (Hu s); destruct (fst (step_userinfo L X args s)) as [d7|e7|b7]
    end; [| | destruct (Hu b7 eq_refl)];
      rewrite <- !app_assoc; reflexivity.
  - rewrite run_step_then by apply step_token_contained.
    rewrite run_step_then by apply step_refresh_contained.
    rewrite run_step_eq.
    pose proof (step_userinfo_contained) as Hu.
    match goal with
    | |- context [fst (step_userinfo L X args ?s)] =>
        specialize (Hu s); destruct (fst (step_userinfo L X args s)) as [d7|e7|b7]
    end; [| | destruct (Hu b7 eq_refl)];
      rewrite <- !app_assoc; reflexivity.
  - cbn [entry_of]. rewrite !app_nil_r. reflexivity.
Qed.

(** *** The printed report *)

Lemma in_session_eq {A} (m : @step W A) s (es : list ReportEntry) :
  in_session m (s, es) = (fst (m s), (snd (m s), es)).
Proof. unfold in_session. cbn. now destruct (m s). Qed.

Lemma failures_nil (es : list ReportEntry) :
  filter is_failure es = [] ->
  forall e, In e es -> status e <> "FAIL"%string.
Proof.
  intros E e He Hf.
  assert (Hin : In e (filter is_failure es)).
  { apply filter_In. split; [exact He|]. unfold is_failure. now rewrite Hf. }
  now rewrite E in Hin.
Qed.

Lemma failures_cons (es : list ReportEntry) f fs :
  filter is_failure es = f :: fs ->
  exists e, In e es /\ status e = "FAIL"%string.
Proof.
  intros E. exists f.
  assert (Hin : In f (filter is_failure es)) by (rewrite E; now left).
  apply filter_In in Hin. destruct Hin as [Hin Hf]. split; [exact Hin|].
  unfold is_failure in Hf. now apply String.eqb_eq in Hf.
Qed.

Lemma raises_and_then {A B} P (m : step A) (f : A -> step B) :
  raises (W := W) P m -> (forall a, raises P (f a)) -> raises P (and_then m f).
Proof.
  intros Hm Hf s e. unfold and_then. specialize (Hm s).
  destruct (m s) as [[a|e'|b] s']; cbn in *.
  - apply Hf.
  - intros [= <-]. now apply Hm.
  - discriminate.
Qed.

Lemma call_print_raises text :
  raises (fun exc => exists text w', fst (print X text w') = Some exc)
         (call_print X text).
Proof.
  intros s e. unfold call_print, and_then, world_call.
  destruct (print X text (world s)) as [[exc|] w'] eqn:E; cbn.
  - intros [= <-]. exists text, (world s). now rewrite E.
  - discriminate.
Qed.

Lemma print_entries_raises es :
  raises (fun exc => exists text w', fst (print X text w') = Some exc)
         (print_entries L X es).
Proof.
  induction es as [|e es IH]; cbn [print_entries].
  - intros s e H. discriminate H.
  - apply raises_and_then; [| intros ?; exact IH]. unfold print_entry.
    apply raises_and_then; [apply call_print_raises | intros ?].
    apply raises_and_then; [apply call_print_raises | intros ?].
    apply call_print_raises.
Qed.

(** What a program of prints does: the context stays, nothing passes, and
    what it raises a call of [print] raised. *)
Lemma printing_cases {A} (m : @step W A) (s : Session) :
  writes_only [] m -> passes (fun _ => False) m ->
  raises (fun exc => exists text w', fst (print X text w') = Some exc) m ->
  (forall k, context (snd (m s)) !! k = context s !! k)
  /\ match fst (m s) with
     | Returned _ => True
     | Raised exc => exists text w', fst (print X text w') = Some exc
     | Passed _ => False
     end.
Proof.
  intros Hw Hc Hr. split.
  - intros k. apply Hw, not_elem_of_nil.
  - specialize (Hc s). specialize (Hr s).
    destruct (fst (m s)) as [a|e|b]; [exact I | now apply Hr | now apply (Hc b)].
Qed.

(** Printing the report keeps the entries and the context; it ends by
    returning only if no entry is a FAIL, with [SystemExit] only if one
    is, and otherwise with the exception a call of [print] raised. *)
Lemma print_report_cases (s : Session) (es : list ReportEntry) :
  snd (snd (print_report L X (s, es))) = es
  /\ (forall k, context (fst (snd (print_report L X (s, es)))) !! k
                = context s !! k)
  /\ match fst (print_report L X (s, es)) with
     | Returned _ => forall e, In e es -> status e <> "FAIL"%string
     | Raised exc => exists text w', fst (print X text w') = Some exc
     | Passed b =>
         b = SystemExit (lit "One or more steps failed. See report above for details.")
         /\ exists e, In e es /\ status e = "FAIL"%string
     end.
Proof.
  unfold print_report, and_then, recorded. rewrite in_session_eq.
  match goal with
  | |- context [call_print X ?text s] =>
      destruct (printing_cases (call_print X text) s
                  (call_print_writes [] text) (call_print_contained text)
                  (call_print_raises text)) as [Hk1 Hr1];
      destruct (call_print X text s) as [[[]|e1|b1] s1]
  end; cbn [fst snd] in *; [| now repeat split | destruct Hr1].
  rewrite in_session_eq.
  destruct (printing_cases (print_entries L X es) s1
              (print_entries_writes [] es) (print_entries_contained es)
              (print_entries_raises es)) as [Hk2 Hr2].
  destruct (print_entries L X es s1) as [[[]|e2|b2] s2]; cbn [fst snd] in *;
    [| split; [reflexivity | split; [intros k; now rewrite Hk2 | exact Hr2]]
     | destruct Hr2].
  assert (Hk : forall k, context s2 !! k = context s !! k)
    by (intros k; now rewrite Hk2).
  destruct (filter is_failure es) as [|f fs] eqn:E.
  - unfold ret. cbn [fst snd].
    split; [reflexivity|]. split; [exact Hk|]. now apply failures_nil.
  - unfold ret, pass. destruct (existsb _ (f :: fs)).
    + rewrite in_session_eq.
      match goal with
      | |- context [call_print X ?text s2] =>
          destruct (printing_cases (call_print X text) s2
                      (call_print_writes [] text) (call_print_contained text)
                      (call_print_raises text)) as [Hk3 Hr3];
          destruct (call_print X text s2) as [[[]|e3|b3] s3]
      end; cbn [fst snd] in *.
      * split; [reflexivity|]. split; [intros k; now rewrite Hk3|].
        split; [reflexivity | now apply (failures_cons es f fs)].
      * split; [reflexivity|]. split; [intros k; now rewrite Hk3 | exact Hr3].
      * destruct Hr3.
    + cbn. split; [reflexivity|]. split; [exact Hk|].
      split; [reflexivity | now apply (failures_cons es f fs)].
Qed.

End ReportFacts.
(** *** The run as a whole *)

Section ReportRun.
Variable L : Lib.
Context {W : Type}.
Variable X : World W.
Variable args : Args.t.

(** The run, step by step, and the way it ends. *)
Lemma handle_report_chain (w : W) :
  let s0 := {| context := initial_context args; world := w |} in
  let s1 := snd (step_config L args s0) in
  let s2 := snd (step_discovery L X args s1) in
  let s3 := snd (step_client_credentials L X args s2) in
  let s4 := snd (step_authorization L X args s3) in
  let s5 := snd (step_token L X args s4) in
  let s6 := snd (step_refresh L X args s5) in
  let s7 := snd (step_userinfo L X args s6) in
  let before :=
    entry_of (lit "Load configuration from " ++ Args.env_file args)
             (fst (step_config L args s0))
    ++ entry_of (lit "Fetch OIDC discovery metadata")
                (fst (step_discovery L X args s1))
    ++ entry_of (lit "Client credentials grant")
                (fst (step_client_credentials L X args s2)) in
  let after :=
    entry_of (lit "Exchange authorization code for tokens")
             (fst (step_token L X args s4))
    ++ entry_of (lit "Refresh token exchange")
                (fst (step_refresh L X args s5))
    ++ entry_of (lit "Userinfo endpoint call")
                (fst (step_userinfo L X args s6)) in
  let o := handle_report L X args w in
  match fst (step_authorization L X args s3) with
  | Passed b => entries o = before /\ ended o = Passed b /\ final o = s4
  | r =>
      entries o = before ++ entry_of (lit "Authorization code capture") r ++ after
      /\ ended o = fst (print_report L X (s7, entries o))
      /\ forall k, context (final o) !! k = context s7 !! k
  end.
Proof.
  cbv zeta. unfold handle_report, report_body, and_then.
  rewrite run_steps_chain.
  destruct (fst (step_authorization L X args _)) as [d|e|b];
    [| | now repeat split].
  - match goal with
    | |- context [print_report L X (?s, ?es)] =>
        destruct (print_report_cases L X s es) as (Hes & Hk & _);
        destruct (print_report L X (s, es)) as [r [sf esf]] eqn:E
    end.
    cbn [fst snd entries ended final] in *. subst esf.
    split; [reflexivity|]. split; [now rewrite E | exact Hk].
  - match goal with
    | |- context [print_report L X (?s, ?es)] =>
        destruct (print_report_cases L X s es) as (Hes & Hk & _);
        destruct (print_report L X (s, es)) as [r [sf esf]] eqn:E
    end.
    cbn [fst snd entries ended final] in *. subst esf.
    split; [reflexivity|]. split; [now rewrite E | exact Hk].
Qed.


(** The entry of the authorization step is the fourth, the entry of the
    token step the fifth. *)
Lemma handle_report_fourth (w : W) (e : ReportEntry) :
  let s0 := {| context := initial_context args; world := w |} in
  let s1 := snd (step_config L args s0) in
  let s2 := snd (step_discovery L X args s1) in
  let s3 := snd (step_client_credentials L X args s2) in
  entry_of (lit "Authorization code capture")
           (fst (step_authorization L X args s3)) = [e] ->
  entries (handle_report L X args w) !! 3%nat = Some e.
Proof.
  cbv zeta. intros E4. pose proof (handle_report_chain w) as H. cbv zeta in H.
  set (s0 := {| context := initial_context args; world := w |}) in *.
  destruct (entry_of_single (lit "Load configuration from " ++ Args.env_file args)
              (step_config L args) s0 (step_config_contained L args))
    as (e1 & E1 & _).
  set (s1 := snd (step_config L args s0)) in *.
  destruct (entry_of_single (lit "Fetch OIDC discovery metadata")
              (step_discovery L X args) s1 (step_discovery_contained L X args))
    as (e2 & E2 & _).
  set (s2 := snd (step_discovery L X args s1)) in *.
  destruct (entry_of_single (lit "Client credentials grant")
              (step_client_credentials L X args) s2
              (step_client_credentials_contained L X args))
    as (e3 & E3 & _).
  set (s3 := snd (step_client_credentials L X args s2)) in *.
  rewrite E1, E2, E3 in H.
  destruct (fst (step_authorization L X args s3)) as [d|exc|b];
    [| | discriminate E4];
    destruct H as (-> & _); rewrite E4; reflexivity.
Qed.

Lemma handle_report_fifth (w : W) (e e' : ReportEntry) :
  let s0 := {| context := initial_context args; world := w |} in
  let s1 := snd (step_config L args s0) in
  let s2 := snd (step_discovery L X args s1) in
  let s3 := snd (step_client_credentials L X args s2) in
  let s4 := snd (step_authorization L X args s3) in
  entry_of (lit "Authorization code capture")
           (fst (step_authorization L X args s3)) = [e] ->
  entry_of (lit "Exchange authorization code for tokens")
           (fst (step_token L X args s4)) = [e'] ->
  entries (handle_report L X args w) !! 4%nat = Some e'.
Proof.
  cbv zeta. intros E4 E5. pose proof (handle_report_chain w) as H. cbv zeta in H.
  set (s0 := {| context := initial_context args; world := w |}) in *.
  destruct (entry_of_single (lit "Load configuration from " ++ Args.env_file args)
              (step_config L args) s0 (step_config_contained L args))
    as (e1 & E1 & _).
  set (s1 := snd (step_config L args s0)) in *.
  destruct (entry_of_single (lit "Fetch OIDC discovery metadata")
              (step_discovery L X args) s1 (step_discovery_contained L X args))
    as (e2 & E2 & _).
  set (s2 := snd (step_discovery L X args s1)) in *.
  destruct (entry_of_single (lit "Client credentials grant")
              (step_client_credentials L X args) s2
              (step_client_credentials_contained L X args))
    as (e3 & E3 & _).
  set (s3 := snd (step_client_credentials L X args s2)) in *.
  rewrite E1, E2, E3, E5 in H.
  destruct (fst (step_authorization L X args s3)) as [d|exc|b];
    [| | discriminate E4];
    destruct H as (-> & _); rewrite E4; reflexivity.
Qed.

(** How a run can end. *)
Lemma handle_report_ending (w : W) :
  let o := handle_report L X args w in
  match ended o with
  | Returned _ => forall e, In e (entries o) -> status e <> "FAIL"%string
  | Raised exc => exists text w', fst (print X text w') = Some exc
  | Passed (SystemExit m) =>
      m = lit "One or more steps failed. See report above for details."
      /\ exists e, In e (entries o) /\ status e = "FAIL"%string
  | Passed KeyboardInterrupt =>
      (exists p w', fst (input X p w') = CtrlC)
      /\ truthy_opt (Args.authorization_code args) = false
      /\ Args.non_interactive args = false
  end.
Proof.
  cbv zeta. pose proof (handle_report_chain w) as H. cbv zeta in H.
  match type of H with
  | context [fst (step_authorization L X args ?s)] =>
      pose proof (step_authorization_passes L X args s) as Hp;
      destruct (fst (step_authorization L X args s)) as [d|e|b]
  end.
  - destruct H as (_ & -> & _).
    match goal with
    | |- context [print_report L X (?s, ?es)] =>
        destruct (print_report_cases L X s es) as (_ & _ & Hr);
        destruct (fst (print_report L X (s, es))) as [[]|exc|[|m]]
    end; try exact Hr.
    + destruct Hr as [Hr _]. discriminate Hr.
    + destruct Hr as [[= ->] Hf]. now split.
  - destruct H as (_ & -> & _).
    match goal with
    | |- context [print_report L X (?s, ?es)] =>
        destruct (print_report_cases L X s es) as (_ & _ & Hr);
        destruct (fst (print_report L X (s, es))) as [[]|exc|[|m]]
    end; try exact Hr.
    + destruct Hr as [Hr _]. discriminate Hr.
    + destruct Hr as [[= ->] Hf]. now split.
  - destruct H as (_ & -> & _). destruct (Hp b eq_refl) as (-> & Hi & Hc & Hn).
    now repeat split.
Qed.

(** Keys no step before the authorization step writes. *)
Lemma context_before_authorization (w : W) (k : pystr) :
  k <> lit "client_credentials" ->
  let s0 := {| context := initial_context args; world := w |} in
  let s1 := snd (step_config L args s0) in
  let s2 := snd (step_discovery L X args s1) in
  let s3 := snd (step_client_credentials L X args s2) in
  context s3 !! k = initial_context args !! k.
Proof.
  intros Hk. cbv zeta.
  rewrite (step_client_credentials_writes L X args)
    by (apply not_elem_of_cons; split; [exact Hk | apply not_elem_of_nil]).
  rewrite (step_discovery_writes L X args) by apply not_elem_of_nil.
  rewrite (step_config_writes L args) by apply not_elem_of_nil.
  reflexivity.
Qed.

Lemma step_authorization_demands_verifier (s : Session) :
  truthy_opt (Args.authorization_code args) = true ->
  Args.disable_pkce args = false ->
  context s !! lit "code_verifier" = None ->
  step_authorization L X args s =
    (Raised (RuntimeError (lit "PKCE is required for this flow. Supply --code-verifier with the value used when obtaining the code.")), s).
Proof.
  intros Hcode Hpkce Hctx. unfold step_authorization. rewrite Hcode.
  unfold and_then, ctx_has, use_pkce. rewrite Hctx, Hpkce. reflexivity.
Qed.

Lemma step_token_without_code (s : Session) :
  context s !! lit "authorization_code" = None ->
  step_token L X args s =
    (Raised (SkipStep (lit "No authorization code captured; token exchange skipped.")), s).
Proof.
  intros Hctx. unfold step_token, and_then, ctx_get. now rewrite Hctx.
Qed.
End ReportRun.






(** C5. In a run given an authorization code but no code verifier, with
    PKCE not disabled, the authorization step fails with the message that
    demands --code-verifier, the token step is skipped for want of a code
    and never obtains tokens, and the run exits with a non-zero status. *)
Theorem report_without_verifier_stops_before_token (L : Lib) {W : Type}
    (X : World W) (args : Args.t) (w : W) :
  truthy_opt (Args.authorization_code args) = true ->
  truthy_opt (Args.code_verifier args) = false ->
  Args.disable_pkce args = false ->
  let o := handle_report L X args w in
  entries o !! 3%nat =
    Some {| name := lit "Authorization code capture"; status := "FAIL";
            detail := lit "PKCE is required for this flow. Supply --code-verifier with the value used when obtaining the code." |}
  /\ entries o !! 4%nat =
       Some {| name := lit "Exchange authorization code for tokens";
               status := "SKIP";
               detail := lit "No authorization code captured; token exchange skipped." |}
  /\ context (final o) !! lit "auth_tokens" = None
  /\ exit_status o = 1%Z.
Proof.
  intros Hcode Hver Hpkce. cbv zeta.
  assert (Hinit : initial_context args = ∅).
  { unfold initial_context. now rewrite Hver. }
  pose proof (context_before_authorization L X args w) as Hctx.
  pose proof (handle_report_chain L X args w) as Hchain.
  cbv zeta in Hctx, Hchain.
  set (s3 := snd (step_client_credentials L X args _)) in *.
  assert (Hauth := step_authorization_demands_verifier L X args s3 Hcode Hpkce).
  rewrite Hctx, Hinit in Hauth by (intros E; vm_compute in E; discriminate).
  specialize (Hauth (lookup_empty _)).
  assert (Htok := step_token_without_code L X args s3).
  rewrite Hctx, Hinit in Htok by (intros E; vm_compute in E; discriminate).
  specialize (Htok (lookup_empty _)).
  assert (H3 : entries (handle_report L X args w) !! 3%nat =
    Some {| name := lit "Authorization code capture"; status := "FAIL";
            detail := lit "PKCE is required for this flow. Supply --code-verifier with the value used when obtaining the code." |}).
  { apply handle_report_fourth. cbv zeta. fold s3. now rewrite Hauth. }
  split; [exact H3|]. split; [|split].
  - eapply handle_report_fifth; cbv zeta; fold s3; rewrite Hauth; cbn [fst snd].
    + reflexivity.
    + now rewrite Htok.
  - rewrite Hauth in Hchain. cbn [fst snd] in Hchain.
    destruct Hchain as (_ & _ & Hfinal). rewrite Hfinal.
    rewrite (step_userinfo_writes L X args) by apply not_elem_of_nil.
    rewrite (step_refresh_writes L X args)
      by (apply not_elem_of_cons; split;
          [intros E; vm_compute in E; discriminate | apply not_elem_of_nil]).
    rewrite Htok. cbn [snd].
    rewrite Hctx, Hinit by (intros E; vm_compute in E; discriminate).
    apply lookup_empty.
  - pose proof (handle_report_ending L X args w) as He. cbv zeta in He.
    unfold exit_status.
    destruct (ended (handle_report L X args w)) as [[]|exc|[|m]];
      try reflexivity.
    + apply list_elem_of_lookup_2, list_elem_of_In in H3.
      now destruct (He _ H3).
    + destruct He as (_ & Hc & _). congruence.
Qed.

Lemma report_without_verifier_stops_before_token_witness :
  let args := Stub.make_args (Some (lit "https://example.com/cb?code=abc123"))
                             None (Some (lit "secret")) None in
  let o := handle_report Stub.lib Stub.world args [] in
  truthy_opt (Args.authorization_code args) = true
  /\ truthy_opt (Args.code_verifier args) = false
  /\ Args.disable_pkce args = false
  /\ entries o !! 3%nat =
       Some {| name := lit "Authorization code capture"; status := "FAIL";
               detail := lit "PKCE is required for this flow. Supply --code-verifier with the value used when obtaining the code." |}
  /\ entries o !! 4%nat =
       Some {| name := lit "Exchange authorization code for tokens";
               status := "SKIP";
               detail := lit "No authorization code captured; token exchange skipped." |}
  /\ context (final o) !! lit "auth_tokens" = None
  /\ exit_status o = 1%Z.
Proof.
  cbv zeta. split; [reflexivity|]. split; [reflexivity|]. split; [reflexivity|].
  exact (report_without_verifier_stops_before_token Stub.lib Stub.world
           (Stub.make_args (Some (lit "https://example.com/cb?code=abc123"))
                           None (Some (lit "secret")) None)
           [] eq_refl eq_refl eq_refl).
Defined.

(** ** [_extract_code] *)

Lemma strip_blank (value : pystr) :
  forallb isspace value = true -> strip value = [].
Proof. intros H. unfold strip. now rewrite lstrip_by_all. Qed.

Lemma extract_code_blank (L : Lib) (value : pystr) :
  forallb isspace value = true ->
  _extract_code L value = Raise (SkipStep (lit "Authorization code not provided.")).
Proof. intros H. unfold _extract_code. now rewrite strip_blank. Qed.

(** C9 as stated does not hold: a blank [--authorization-code] with PKCE
    enabled and no verifier gives a FAIL entry, not a SKIP entry. *)
Lemma blank_code_without_verifier_fails :
  let args := Stub.make_args (Some (lit "  ")) None None None in
  forallb isspace (lit "  ") = true
  /\ exists e,
       entries (handle_report Stub.lib Stub.world args []) !! 3%nat = Some e
       /\ name e = lit "Authorization code capture"
       /\ status e = "FAIL"%string
       /\ status e <> "SKIP"%string.
Proof.
  cbv zeta. split; [reflexivity|].
  eexists. split; [vm_compute; reflexivity|].
  split; [reflexivity|]. split; [reflexivity | discriminate].
Qed.

(** C9, amended. [_extract_code] raises [SkipStep] for every empty or
    whitespace-only string.  The authorization step records SKIP for a
    blank, non-empty [--authorization-code] when PKCE is disabled or a code
    verifier is supplied, and for an empty one when prompts are disabled. *)
Theorem blank_code_is_skipped (L : Lib) {W : Type} (X : World W)
    (args : Args.t) (w : W) (value : pystr) :
  forallb isspace value = true ->
  _extract_code L value = Raise (SkipStep (lit "Authorization code not provided."))
  /\ (Args.authorization_code args = Some value -> value <> [] ->
      Args.disable_pkce args = true
      \/ truthy_opt (Args.code_verifier args) = true ->
      entries (handle_report L X args w) !! 3%nat =
        Some {| name := lit "Authorization code capture"; status := "SKIP";
                detail := lit "Authorization code not provided." |})
  /\ (Args.authorization_code args = Some value -> value = [] ->
      Args.non_interactive args = true ->
      entries (handle_report L X args w) !! 3%nat =
        Some {| name := lit "Authorization code capture"; status := "SKIP";
                detail := lit "Authorization code not provided and prompts are disabled (--non-interactive)." |}).
Proof.
  intros Hblank. split; [now apply extract_code_blank|].
  split.
  - intros Hcode Hne Hguard. apply handle_report_fourth. cbv zeta.
    set (s3 := snd (step_client_credentials L X args _)).
    assert (Hrun : step_authorization L X args s3 =
              (Raised (SkipStep (lit "Authorization code not provided.")), s3)).
    { unfold step_authorization. rewrite Hcode.
      assert (Ht : truthy_opt (Some value) = true) by (now destruct value).
      rewrite Ht. unfold and_then, ctx_has, use_pkce.
      assert (Hg : negb (Args.disable_pkce args)
                   && negb (bool_decide (is_Some (context s3 !! lit "code_verifier")))
                   = false).
      { destruct Hguard as [-> | Hver]; [reflexivity|].
        unfold s3.
        rewrite (context_before_authorization L X args w)
          by (intros E; vm_compute in E; discriminate).
        unfold initial_context. rewrite Hver, lookup_insert_eq.
        rewrite bool_decide_eq_true_2 by (now eexists).
        apply andb_false_r. }
      rewrite Hg. change (default [] (Some value)) with value. unfold lift.
      now rewrite (extract_code_blank L value Hblank). }
    now rewrite Hrun.
  - intros Hcode -> Hni. apply handle_report_fourth. cbv zeta.
    unfold step_authorization. rewrite Hcode. cbn [truthy_opt truthy].
    rewrite Hni. reflexivity.
Qed.

Lemma blank_code_is_skipped_witness :
  let args := Stub.make_args (Some (lit "  ")) (Some (lit "verifier")) None None in
  forallb isspace (lit "  ") = true
  /\ _extract_code Stub.lib (lit "  ") =
       Raise (SkipStep (lit "Authorization code not provided."))
  /\ entries (handle_report Stub.lib Stub.world args []) !! 3%nat =
       Some {| name := lit "Authorization code capture"; status := "SKIP";
               detail := lit "Authorization code not provided." |}.
Proof.
  cbv zeta. split; [reflexivity|].
  destruct (blank_code_is_skipped Stub.lib Stub.world
              (Stub.make_args (Some (lit "  ")) (Some (lit "verifier")) None None)
              [] (lit "  ") eq_refl) as (H1 & H2 & _).
  split; [exact H1|].
  apply H2; [reflexivity | discriminate | right; reflexivity].
Defined.

(** Boolean comparisons on [N] to linear arithmetic. *)
Ltac bool_lia :=
  repeat match goal with
         | H : _ && _ = true |- _ => apply andb_prop in H; destruct H
         | H : negb _ = true |- _ => apply negb_true_iff in H
         | H : _ || _ = false |- _ => apply orb_false_iff in H; destruct H
         | H : (_ <? _)%N = true |- _ => apply N.ltb_lt in H
         | H : (_ <=? _)%N = true |- _ => apply N.leb_le in H
         | H : (_ =? _)%N = false |- _ => apply N.eqb_neq in H
         end;
  repeat match goal with
         | |- _ /\ _ => split
         | |- (_ <? _)%N = true => apply N.ltb_lt
         | |- (_ <? _)%N = false => apply N.ltb_ge
         | |- (_ <=? _)%N = true => apply N.leb_le
         | |- (_ <=? _)%N = false => apply N.leb_gt
         | |- (_ =? _)%N = false => apply N.eqb_neq
         | |- negb _ = true => apply negb_true_iff
         | |- _ || _ = false => apply orb_false_iff
         | |- _ && _ = true => apply andb_true_intro
         end;
  try lia.

(** ** Splitting text *)

Section Splitting.
Local Open Scope N_scope.

Lemma contains_app c (s t : pystr) :
  contains c (s ++ t) = contains c s || contains c t.
Proof. apply existsb_app. Qed.

Lemma contains_false_forallb c (s : pystr) :
  contains c s = false <-> forallb (fun x => negb (x =? c)) s = true.
Proof.
  unfold contains. induction s as [|x s IH]; simpl; [tauto|].
  rewrite orb_false_iff, andb_true_iff, IH, negb_true_iff, (N.eqb_sym c x).
  tauto.
Qed.

Lemma split_once_none c (s : pystr) :
  contains c s = false -> split_once c s = None.
Proof.
  unfold contains. induction s as [|x s IH]; simpl; [reflexivity|].
  intros [Hx Hs]%orb_false_iff. rewrite N.eqb_sym, Hx. now rewrite (IH Hs).
Qed.

Lemma split_once_app c (b t : pystr) :
  contains c t = false ->
  split_once c (b ++ t) =
    match split_once c b with
    | Some (a, r) => Some (a, r ++ t)
    | None => None
    end.
Proof.
  intros Ht. induction b as [|x b IH]; simpl.
  - now apply split_once_none.
  - destruct (x =? c); [reflexivity|]. rewrite IH.
    now destruct (split_once c b) as [[a r]|].
Qed.

Lemma split_once_at c (b t : pystr) :
  contains c b = false -> split_once c (b ++ c :: t) = Some (b, t).
Proof.
  unfold contains. induction b as [|x b IH]; simpl.
  - now rewrite N.eqb_refl.
  - intros [Hx Hb]%orb_false_iff. rewrite N.eqb_sym, Hx. now rewrite (IH Hb).
Qed.

Lemma split_once_forallb (p : N -> bool) c (b a r : pystr) :
  split_once c b = Some (a, r) -> forallb p b = true ->
  forallb p a = true /\ forallb p r = true.
Proof.
  revert a r. induction b as [|x b IH]; simpl; [discriminate|].
  intros a r. destruct (x =? c).
  - intros [= <- <-] [_ Hb]%andb_prop. now split.
  - destruct (split_once c b) as [[a' r']|]; [|discriminate].
    intros [= <- <-] [Hx Hb]%andb_prop.
    destruct (IH _ _ eq_refl Hb) as [Ha Hr]. simpl. now rewrite Hx, Ha.
Qed.

Lemma span_app (p : N -> bool) (b : pystr) x t :
  p x = false ->
  Url.span p (b ++ x :: t) =
    let '(n, r) := Url.span p b in (n, r ++ x :: t).
Proof.
  intros Hx. induction b as [|y b IH]; simpl.
  - now rewrite Hx.
  - destruct (p y); [|reflexivity]. rewrite IH. now destruct (Url.span p b).
Qed.

Lemma span_forallb (q p : N -> bool) (b n r : pystr) :
  Url.span p b = (n, r) -> forallb q b = true ->
  forallb q n = true /\ forallb q r = true.
Proof.
  revert n r. induction b as [|y b IH]; simpl.
  - intros n r [= <- <-] _. now split.
  - intros n r. destruct (p y).
    + destruct (Url.span p b) as [n' r']. intros [= <- <-] [Hy Hb]%andb_prop.
      destruct (IH _ _ eq_refl Hb) as [Hn Hr]. simpl. now rewrite Hy, Hn.
    + intros [= <- <-] H. now split.
Qed.

Lemma remove_char_keep c (s : pystr) :
  contains c s = false -> remove_char c s = s.
Proof.
  intros H%contains_false_forallb. unfold remove_char.
  induction s as [|x s IH]; simpl in *; [reflexivity|].
  apply andb_prop in H. destruct H as [Hx Hs].
  rewrite Hx. now rewrite (IH Hs).
Qed.

Lemma rstrip_by_last (p : N -> bool) (s : pystr) c :
  p c = false -> rstrip_by p (s ++ [c]) = s ++ [c].
Proof.
  intros Hc. induction s as [|x s IH]; simpl.
  - now rewrite Hc.
  - rewrite IH. now destruct (s ++ [c]) eqn:E; [destruct s; discriminate|].
Qed.
End Splitting.

(** ** [urlsplit] on a URL that ends in a query string *)

Section UrlQuery.
Local Open Scope N_scope.
Variable L : Lib.

Lemma url_text_char_inv c :
  url_text_char c = true ->
  32 < c /\ c < 127 /\ c <> 63 /\ c <> 35 /\ c <> 91 /\ c <> 93.
Proof. unfold url_text_char. intros H. bool_lia. Qed.

(** Text without a given character, from a bound on what it can hold. *)
Lemma text_lacks (c : N) (b : pystr) :
  (forall x, url_text_char x = true -> x <> c) ->
  forallb url_text_char b = true -> contains c b = false.
Proof.
  intros Hc Hb. apply contains_false_forallb.
  eapply forallb_impl; [|exact Hb]. intros x Hx. cbv beta.
  apply negb_true_iff, N.eqb_neq. now apply Hc.
Qed.

Lemma text_is_ascii (b : pystr) :
  forallb url_text_char b = true -> isascii b = true.
Proof.
  apply forallb_impl. intros x Hx.
  apply url_text_char_inv in Hx. apply N.ltb_lt. lia.
Qed.

Lemma split_scheme_text (base q : pystr) :
  forallb url_text_char base = true ->
  forallb (fun c => negb (c =? 58)) q = true ->
  exists sch b1,
    Url.split_scheme (base ++ 63 :: q) = (sch, b1 ++ 63 :: q)
    /\ forallb url_text_char b1 = true.
Proof.
  intros Hbase Hq. unfold Url.split_scheme.
  assert (Hq58 : contains (chr ":") (63 :: q) = false).
  { apply contains_false_forallb. change (chr ":") with 58.
    cbn [forallb]. now rewrite Hq. }
  rewrite (split_once_app _ _ _ Hq58).
  destruct (split_once (chr ":") base) as [[pre rest]|] eqn:E.
  - destruct (split_once_forallb _ _ _ _ _ E Hbase) as [_ Hrest].
    destruct pre as [|c pre]; [now exists [], base|].
    destruct (_ && _); [now exists (Url.lower (c :: pre)), rest | now exists [], base].
  - now exists [], base.
Qed.

Lemma split_netloc_text (b1 q : pystr) :
  forallb url_text_char b1 = true ->
  exists nl b2,
    Url.split_netloc L (b1 ++ 63 :: q) = Return (nl, b2 ++ 63 :: q)
    /\ forallb url_text_char nl = true /\ forallb url_text_char b2 = true.
Proof.
  intros Hb1. unfold Url.split_netloc.
  destruct (starts_with (lit "//") (b1 ++ 63 :: q)) eqn:Es;
    [|now exists [], b1].
  destruct b1 as [|x [|y b1]]; [discriminate Es | | ].
  { cbn in Es. rewrite andb_false_r in Es. discriminate Es. }
  cbn [forallb] in Hb1. apply andb_prop in Hb1. destruct Hb1 as [_ Hb1].
  apply andb_prop in Hb1. destruct Hb1 as [_ Hb1].
  change (skipn 2 ((x :: y :: b1) ++ 63 :: q)) with (b1 ++ 63 :: q).
  unfold Url._splitnetloc. rewrite span_app by reflexivity.
  destruct (Url.span _ b1) as [n r] eqn:En.
  destruct (span_forallb url_text_char _ _ _ _ En Hb1) as [Hn Hr].
  rewrite (text_lacks (chr "[") n), (text_lacks (chr "]") n); try assumption.
  - now exists n, r.
  - intros z Hz. apply url_text_char_inv in Hz. now change (chr "]") with 93.
  - intros z Hz. apply url_text_char_inv in Hz. now change (chr "[") with 91.
Qed.

Lemma urlsplit_keeps_query (base q : pystr) :
  forallb url_text_char base = true ->
  forallb (fun c => (32 <? c) && negb (c =? 35) && negb (c =? 58)) q = true ->
  exists r, Url.urlsplit L (base ++ 63 :: q) = Return r /\ Url.query r = q.
Proof.
  intros Hbase Hq.
  assert (Hvis : forall c, (forall x, 32 < x -> x <> c) ->
                 contains c (base ++ 63 :: q) = false).
  { intros c Hc. apply contains_false_forallb. rewrite forallb_app.
    apply andb_true_intro. split.
    - eapply forallb_impl; [|exact Hbase]. intros x Hx.
      apply url_text_char_inv in Hx. apply negb_true_iff, N.eqb_neq, Hc. lia.
    - cbn [forallb]. apply andb_true_intro. split.
      + apply negb_true_iff, N.eqb_neq, Hc. lia.
      + eapply forallb_impl; [|exact Hq]. intros x Hx. cbv beta in Hx.
        apply negb_true_iff, N.eqb_neq, Hc. bool_lia. }
  unfold Url.urlsplit. cbv zeta.
  (* leading controls and embedded tab, CR, LF: nothing to remove *)
  assert (Hl : lstrip_by Url.c0_control_or_space (base ++ 63 :: q) = base ++ 63 :: q).
  { destruct base as [|c b]; simpl; [reflexivity|].
    simpl in Hbase. apply andb_prop in Hbase. destruct Hbase as [Hc _].
    apply url_text_char_inv in Hc. unfold Url.c0_control_or_space.
    now replace (c <=? 32) with false by (symmetry; apply N.leb_gt; lia). }
  rewrite Hl.
  rewrite (remove_char_keep 9), (remove_char_keep 13), (remove_char_keep 10)
    by (rewrite ?remove_char_keep; apply Hvis; intros; lia).
  (* the scheme *)
  destruct (split_scheme_text base q Hbase) as (sch & b1 & -> & Hb1).
  { eapply forallb_impl; [|exact Hq]. intros x Hx. cbv beta in Hx. bool_lia. }
  (* the network location *)
  destruct (split_netloc_text b1 q Hb1) as (nl & b2 & -> & Hnl & Hb2).
  cbn [bind].
  (* no fragment; the query starts at the question mark *)
  rewrite (split_once_none (chr "#") (b2 ++ 63 :: q)).
  2:{ rewrite contains_app. apply orb_false_iff. split.
      - apply text_lacks; [|exact Hb2]. intros z Hz.
        apply url_text_char_inv in Hz. now change (chr "#") with 35.
      - apply contains_false_forallb. cbn [forallb]. apply andb_true_intro.
        split; [reflexivity|]. eapply forallb_impl; [|exact Hq].
        intros x Hx. cbv beta in Hx. change (chr "#") with 35. bool_lia. }
  change (chr "?") with 63. rewrite split_once_at.
  2:{ apply text_lacks; [|exact Hb2]. intros z Hz.
      now apply url_text_char_inv in Hz. }
  unfold Url._checknetloc. rewrite (text_is_ascii _ Hnl), orb_true_r. cbn [bind].
  eexists. split; reflexivity.
Qed.
End UrlQuery.

(** ** [parse_qs] and [_extract_code] *)

Section ExtractCode.
Local Open Scope N_scope.
Variable L : Lib.

Lemma parse_qs_fold (k : pystr) (pairs : list (pystr * pystr))
    (m : gmap pystr (list pystr)) :
  fold_left
    (fun parsed_result nv =>
       match parsed_result !! fst nv with
       | Some values => <[fst nv := values ++ [snd nv]]> parsed_result
       | None => <[fst nv := [snd nv]]> parsed_result
       end) pairs m !! k =
  match m !! k, values_of k pairs with
  | Some old, vs => Some (old ++ vs)
  | None, [] => None
  | None, vs => Some vs
  end.
Proof.
  revert m. induction pairs as [|[n v] pairs IH]; intros m; cbn [fold_left].
  - unfold values_of. cbn. destruct (m !! k); [now rewrite app_nil_r | reflexivity].
  - rewrite IH. unfold values_of. cbn [filter map fst snd].
    destruct (decide (n = k)) as [->|Hne].
    + assert (E : pystr_eqb k k = true) by (now apply bool_decide_eq_true_2).
      rewrite E. cbn [map snd].
      destruct (m !! k) as [old|]; rewrite lookup_insert_eq.
      * now rewrite <- app_assoc.
      * reflexivity.
    + assert (E : pystr_eqb n k = false) by (now apply bool_decide_eq_false_2).
      rewrite E.
      destruct (m !! n); now rewrite lookup_insert_ne.
Qed.

Lemma parse_qs_lookup (qs k : pystr) :
  Url.parse_qs qs !! k =
    match values_of k (Url.parse_qsl qs) with
    | [] => None
    | vs => Some vs
    end.
Proof. unfold Url.parse_qs. now rewrite parse_qs_fold, lookup_empty. Qed.

Lemma urlparse_keeps_query (url : pystr) (r : Url.ParseResult) :
  Url.urlsplit L url = Return r ->
  exists r', Url.urlparse L url = Return r' /\ Url.query r' = Url.query r.
Proof.
  intros E. unfold Url.urlparse. rewrite E. cbn [bind].
  destruct (_ && _); [|now exists r].
  destruct (Url._splitparams (Url.path r)). eexists. split; reflexivity.
Qed.

Lemma isspace_text c : url_text_char c = true -> isspace c = false.
Proof.
  intros H. apply url_text_char_inv in H. unfold isspace.
  rewrite !orb_false_iff, !andb_false_iff, !N.leb_gt, !N.eqb_neq. lia.
Qed.

Lemma strip_url_with_query (base : pystr) :
  forallb url_text_char base = true ->
  strip (base ++ lit "?code=abc123&state=xyz") = base ++ lit "?code=abc123&state=xyz".
Proof.
  intros Hbase. unfold strip.
  assert (Hl : lstrip_by isspace (base ++ lit "?code=abc123&state=xyz")
               = base ++ lit "?code=abc123&state=xyz").
  { destruct base as [|c b]; [reflexivity|].
    cbn [forallb] in Hbase. apply andb_prop in Hbase. destruct Hbase as [Hc _].
    cbn [app lstrip_by]. now rewrite (isspace_text c Hc). }
  rewrite Hl.
  change (lit "?code=abc123&state=xyz") with (lit "?code=abc123&state=xy" ++ [122]).
  rewrite app_assoc. now apply rstrip_by_last.
Qed.

Lemma extract_code_from_query (base : pystr) :
  forallb url_text_char base = true ->
  _extract_code L (base ++ lit "?code=abc123&state=xyz") = Return (lit "abc123").
Proof.
  intros Hbase. unfold _extract_code. rewrite (strip_url_with_query base Hbase).
  assert (Ht : truthy (base ++ lit "?code=abc123&state=xyz") = true)
    by (now destruct base).
  rewrite Ht. cbn [negb].
  destruct (urlsplit_keeps_query L base (lit "code=abc123&state=xyz") Hbase eq_refl)
    as (r & Hr & Hq).
  destruct (urlparse_keeps_query _ _ Hr) as (r' & Hr' & Hq').
  change (lit "?code=abc123&state=xyz") with (63 :: lit "code=abc123&state=xyz").
  rewrite Hr'. cbn [bind]. rewrite Hq', Hq. reflexivity.
Qed.
End ExtractCode.

(** C3 as stated does not hold: a URL without a query string is taken to
    be the code itself and returned, not rejected. *)
Lemma extract_code_without_query_returns :
  let value := lit "https://example.com/cb" in
  truthy (strip value) = true
  /\ (exists parsed, Url.urlparse Stub.lib value = Return parsed
                     /\ Url.parse_qs (Url.query parsed) !! lit "code" = None)
  /\ _extract_code Stub.lib value = Return value.
Proof.
  cbv zeta. split; [reflexivity|]. split.
  - eexists. split; [vm_compute; reflexivity|]. reflexivity.
  - vm_compute. reflexivity.
Qed.

(** C3, amended. For every URL made of printable ASCII text without [?],
    [#] and brackets followed by [?code=abc123&state=xyz], [_extract_code]
    returns exactly "abc123".  For a non-blank value that [urlparse]
    accepts: when its query string is not empty, [_extract_code] returns the
    first value the query gives for [code] and raises [RuntimeError] when
    there is none; when it has no query string, the trimmed value itself is
    returned as the code. *)
Theorem extract_code_cases (L : Lib) (base value : pystr)
    (parsed : Url.ParseResult) :
  forallb url_text_char base = true ->
  truthy (strip value) = true ->
  Url.urlparse L (strip value) = Return parsed ->
  _extract_code L (base ++ lit "?code=abc123&state=xyz") = Return (lit "abc123")
  /\ (Url.query parsed <> [] ->
      _extract_code L value =
        match values_of (lit "code") (Url.parse_qsl (Url.query parsed)) with
        | code :: _ => Return code
        | [] => Raise (RuntimeError (lit "Redirect URL does not contain a `code` parameter. Paste the full redirect URL or just the code."))
        end)
  /\ (Url.query parsed = [] -> _extract_code L value = Return (strip value)).
Proof.
  intros Hbase Hvalue Hparsed. split; [now apply extract_code_from_query|].
  unfold _extract_code. rewrite Hvalue, Hparsed. cbn [negb bind]. split.
  - intros Hq. destruct (Url.query parsed) as [|c q] eqn:E; [congruence|].
    cbn [truthy]. rewrite parse_qs_lookup.
    now destruct (values_of _ _).
  - now intros ->.
Qed.

Lemma extract_code_cases_witness :
  let base := lit "https://example.com/cb" in
  let value := lit " https://example.com/cb?state=xyz&c%6Fde=a+b " in
  let parsed :=
    {| Url.scheme := lit "https"; Url.netloc := lit "example.com";
       Url.path := lit "/cb"; Url.params := [];
       Url.query := lit "state=xyz&c%6Fde=a+b"; Url.fragment := [] |} in
  forallb url_text_char base = true
  /\ truthy (strip value) = true
  /\ Url.urlparse Stub.lib (strip value) = Return parsed
  /\ _extract_code Stub.lib (base ++ lit "?code=abc123&state=xyz")
     = Return (lit "abc123")
  /\ (Url.query parsed <> [] ->
      _extract_code Stub.lib value =
        match values_of (lit "code") (Url.parse_qsl (Url.query parsed)) with
        | code :: _ => Return code
        | [] => Raise (RuntimeError (lit "Redirect URL does not contain a `code` parameter. Paste the full redirect URL or just the code."))
        end)
  /\ (Url.query parsed = [] -> _extract_code Stub.lib value = Return (strip value)).
Proof.
  cbv zeta.
  assert (H1 : forallb url_text_char (lit "https://example.com/cb") = true)
    by reflexivity.
  assert (H2 : truthy (strip (lit " https://example.com/cb?state=xyz&c%6Fde=a+b ")) = true)
    by reflexivity.
  assert (H3 : Url.urlparse Stub.lib
                 (strip (lit " https://example.com/cb?state=xyz&c%6Fde=a+b ")) =
               Return {| Url.scheme := lit "https"; Url.netloc := lit "example.com";
                         Url.path := lit "/cb"; Url.params := [];
                         Url.query := lit "state=xyz&c%6Fde=a+b";
                         Url.fragment := [] |})
    by (vm_compute; reflexivity).
  split; [exact H1|]. split; [exact H2|]. split; [exact H3|].
  exact (extract_code_cases Stub.lib _ _ _ H1 H2 H3).
Defined.

(** ** The tenant of the discovery URL *)

Section Tenant.
Local Open Scope N_scope.
Variable L : Lib.

Lemma split_on_nonempty c (p : pystr) : split_on c p <> [].
Proof.
  destruct p as [|x p]; cbn [split_on]; [discriminate|].
  destruct (x =? c); [discriminate|]. now destruct (split_on c p).
Qed.

Lemma split_on_head c (p h : pystr) (t : list pystr) :
  split_on c p = h :: t ->
  contains c h = false /\ (p = h \/ exists r, p = h ++ c :: r).
Proof.
  revert h t. induction p as [|x p IH]; intros h t; cbn [split_on].
  - intros [= <- <-]. split; [reflexivity | now left].
  - destruct (x =? c) eqn:Ex.
    + intros [= <- <-]. apply N.eqb_eq in Ex. subst x.
      split; [reflexivity | right; now exists p].
    + destruct (split_on c p) as [|h' t'] eqn:Ep.
      * now destruct (split_on_nonempty c p).
      * intros [= <- <-]. destruct (IH _ _ eq_refl) as [Hh Hp]. split.
        -- unfold contains in *. cbn [existsb]. now rewrite N.eqb_sym, Ex, Hh.
        -- destruct Hp as [->|[r ->]]; [now left | right; now exists r].
Qed.

(** The first element of [[part for part in path.split("/") if part]] is
    the first non-empty segment of the path. *)
Lemma first_part_is_first_segment (path part : pystr) (parts : list pystr) :
  filter truthy (split_on (chr "/") path) = part :: parts ->
  first_segment path part.
Proof.
  revert part parts. induction path as [|x p IH]; intros part parts.
  - discriminate.
  - cbn [split_on]. destruct (x =? chr "/") eqn:Ex.
    + cbn [filter truthy]. intros H.
      destruct (IH _ _ H) as (k & rest & -> & Hne & Hno & Hrest).
      apply N.eqb_eq in Ex. subst x.
      exists (S k), rest. split; [reflexivity|].
      split; [exact Hne|]. split; [exact Hno | exact Hrest].
    + destruct (split_on (chr "/") p) as [|h t] eqn:Ep.
      * now destruct (split_on_nonempty (chr "/") p).
      * cbn [filter truthy]. intros [= <- <-].
        destruct (split_on_head _ _ _ _ Ep) as [Hh Hp].
        assert (Hx : contains (chr "/") (x :: h) = false).
        { unfold contains in *. cbn [existsb]. now rewrite N.eqb_sym, Ex, Hh. }
        exists 0%nat.
        destruct Hp as [->|[r ->]].
        -- exists []. split; [now rewrite app_nil_r|].
           split; [discriminate|]. split; [exact Hx | now left].
        -- exists (chr "/" :: r). split; [reflexivity|].
           split; [discriminate|]. split; [exact Hx | right; now exists r].
Qed.

Lemma no_part_only_slashes (path : pystr) :
  filter truthy (split_on (chr "/") path) = [] ->
  forallb (N.eqb (chr "/")) path = true.
Proof.
  induction path as [|x p IH]; [reflexivity|].
  cbn [split_on forallb]. destruct (x =? chr "/") eqn:Ex.
  - cbn [filter truthy]. intros H. now rewrite N.eqb_sym, Ex, (IH H).
  - destruct (split_on (chr "/") p); discriminate.
Qed.

Lemma urlparse_empty (parsed : Url.ParseResult) :
  Url.urlparse L [] = Return parsed -> Url.path parsed = [].
Proof. intros [= <-]. reflexivity. Qed.

Lemma tenant_from_discovery_url_cases (url : pystr) (parsed : Url.ParseResult) :
  Url.urlparse L url = Return parsed ->
  (exists seg, _tenant_from_discovery_url L (Some url) = Return (Some seg)
               /\ first_segment (Url.path parsed) seg)
  \/ (_tenant_from_discovery_url L (Some url) = Return None
      /\ forallb (N.eqb (chr "/")) (Url.path parsed) = true).
Proof.
  intros Hparsed. unfold _tenant_from_discovery_url.
  destruct url as [|c url].
  - right. split; [reflexivity|]. now rewrite (urlparse_empty _ Hparsed).
  - cbn [truthy negb]. rewrite Hparsed. cbn [bind].
    destruct (filter truthy (split_on (chr "/") (Url.path parsed)))
      as [|part parts] eqn:E.
    + right. split; [reflexivity | now apply no_part_only_slashes].
    + left. exists part. split; [reflexivity|].
      now apply (first_part_is_first_segment _ _ parts).
Qed.
End Tenant.

(** C2 as stated does not hold on the env file of the repository's own
    test: the tenant loaded is the first path segment, "custom-tenant",
    and the last-but-one segment is ".well-known". *)
Lemma tenant_is_not_last_but_one_segment :
  let url := lit "https://login.microsoftonline.com/custom-tenant/v2.0/.well-known/openid-configuration" in
  env_get Stub.env_values (lit "discovery_url") = Some url
  /\ env_get Stub.env_values (lit "tenant_id") = None
  /\ exists d parsed,
       _load_env_defaults Stub.lib (fun _ => Some Stub.env_values) (lit ".env.local")
         = Return d
       /\ Url.urlparse Stub.lib url = Return parsed
       /\ env_tenant_id d = lit "custom-tenant"
       /\ last_but_one_segment (Url.path parsed) = Some (lit ".well-known")
       /\ Some (env_tenant_id d) <> last_but_one_segment (Url.path parsed).
Proof.
  cbv zeta. split; [reflexivity|]. split; [reflexivity|].
  eexists. eexists.
  split; [vm_compute; reflexivity|]. split; [vm_compute; reflexivity|].
  split; [reflexivity|]. split; [reflexivity|]. discriminate.
Qed.

(** C2, amended. For a configuration file that gives a discovery_url and
    no tenant_id, the tenant loaded is the first non-empty segment of the
    URL's path, which is what [_tenant_from_discovery_url] returns; when the
    path has no such segment the default tenant is kept. *)
Theorem tenant_is_first_path_segment (L : Lib)
    (files : pystr -> option (gmap pystr (option pystr)))
    (env_file : pystr) (values : gmap pystr (option pystr))
    (url : pystr) (parsed : Url.ParseResult) :
  files env_file = Some values ->
  truthy_opt (env_get values (lit "tenant_id")) = false ->
  env_get values (lit "discovery_url") = Some url ->
  Url.urlparse L url = Return parsed ->
  exists d, _load_env_defaults L files env_file = Return d
    /\ ((first_segment (Url.path parsed) (env_tenant_id d)
         /\ _tenant_from_discovery_url L (Some url) = Return (Some (env_tenant_id d)))
        \/ (forallb (N.eqb (chr "/")) (Url.path parsed) = true
            /\ env_tenant_id d = DEFAULT_TENANT_ID
            /\ _tenant_from_discovery_url L (Some url) = Return None)).
Proof.
  intros Hfile Hno Hurl Hparsed. unfold _load_env_defaults.
  rewrite Hfile, Hno. cbn [env_discovery_url]. rewrite Hurl.
  destruct (tenant_from_discovery_url_cases L url parsed Hparsed)
    as [(seg & -> & Hseg)|[-> Hslashes]]; cbn [bind].
  - assert (Ht : truthy seg = true).
    { destruct Hseg as (_ & _ & _ & Hne & _). now destruct seg. }
    rewrite Ht. eexists. split; [reflexivity|]. left. now split.
  - eexists. split; [reflexivity|]. right. now repeat split.
Qed.

Lemma tenant_is_first_path_segment_witness :
  let url := lit "https://login.microsoftonline.com/custom-tenant/v2.0/.well-known/openid-configuration" in
  let parsed :=
    {| Url.scheme := lit "https"; Url.netloc := lit "login.microsoftonline.com";
       Url.path := lit "/custom-tenant/v2.0/.well-known/openid-configuration";
       Url.params := []; Url.query := []; Url.fragment := [] |} in
  let files := fun _ : pystr => Some Stub.env_values in
  files (lit ".env.local") = Some Stub.env_values
  /\ truthy_opt (env_get Stub.env_values (lit "tenant_id")) = false
  /\ env_get Stub.env_values (lit "discovery_url") = Some url
  /\ Url.urlparse Stub.lib url = Return parsed
  /\ exists d, _load_env_defaults Stub.lib files (lit ".env.local") = Return d
       /\ ((first_segment (Url.path parsed) (env_tenant_id d)
            /\ _tenant_from_discovery_url Stub.lib (Some url)
               = Return (Some (env_tenant_id d)))
           \/ (forallb (N.eqb (chr "/")) (Url.path parsed) = true
               /\ env_tenant_id d = DEFAULT_TENANT_ID
               /\ _tenant_from_discovery_url Stub.lib (Some url) = Return None)).
Proof.
  cbv zeta.
  assert (H4 : Url.urlparse Stub.lib
                 (lit "https://login.microsoftonline.com/custom-tenant/v2.0/.well-known/openid-configuration") =
               Return {| Url.scheme := lit "https";
                         Url.netloc := lit "login.microsoftonline.com";
                         Url.path := lit "/custom-tenant/v2.0/.well-known/openid-configuration";
                         Url.params := []; Url.query := []; Url.fragment := [] |})
    by (vm_compute; reflexivity).
  split; [reflexivity|]. split; [reflexivity|]. split; [reflexivity|].
  split; [exact H4|].
  exact (tenant_is_first_path_segment Stub.lib (fun _ => Some Stub.env_values)
           (lit ".env.local") Stub.env_values _ _ eq_refl eq_refl eq_refl H4).
Defined.

(** ** The encoded form body *)

Section FormBody.
Local Open Scope N_scope.
Variable L : Lib.

Lemma upper_hex_not_amp n : UrlEncode.upper_hex n <> 38.
Proof.
  unfold UrlEncode.upper_hex. generalize (N.to_nat n). intros m.
  do 16 (destruct m as [|m]; [vm_compute; discriminate|]).
  cbn. destruct m; discriminate.
Qed.

Lemma always_safe_not_amp b : UrlEncode.always_safe b = true -> b <> 38.
Proof.
  unfold UrlEncode.always_safe.
  rewrite !orb_true_iff, !andb_true_iff, !N.leb_le, !N.eqb_eq. lia.
Qed.

Lemma quote_from_bytes_amp bs :
  contains 38 (UrlEncode.quote_from_bytes bs) = false.
Proof.
  unfold UrlEncode.quote_from_bytes.
  induction bs as [|b bs IH]; [reflexivity|].
  cbn [flat_map]. rewrite contains_app, IH, orb_false_r.
  destruct (UrlEncode.always_safe b) eqn:E; unfold contains; cbn [existsb].
  - apply always_safe_not_amp in E. rewrite orb_false_r. apply N.eqb_neq. congruence.
  - pose proof (upper_hex_not_amp (b / 16)). pose proof (upper_hex_not_amp (b mod 16)).
    rewrite !orb_false_iff, !N.eqb_neq. repeat split; congruence.
Qed.

Lemma quote_amp s q : UrlEncode.quote s = Return q -> contains 38 q = false.
Proof.
  unfold UrlEncode.quote. destruct (UrlEncode.utf8_encode s); [|discriminate].
  intros [= <-]. apply quote_from_bytes_amp.
Qed.

Lemma split_on_none c (p : pystr) :
  contains c p = false -> split_on c p = [p].
Proof.
  unfold contains. induction p as [|x p IH]; [reflexivity|].
  cbn [existsb split_on]. intros [Hx Hp]%orb_false_iff.
  rewrite N.eqb_sym, Hx, (IH Hp). reflexivity.
Qed.

Lemma split_on_sep c (p rest : pystr) :
  contains c p = false -> split_on c (p ++ c :: rest) = p :: split_on c rest.
Proof.
  unfold contains. induction p as [|x p IH]; cbn [existsb split_on app].
  - now rewrite N.eqb_refl.
  - intros [Hx Hp]%orb_false_iff. rewrite N.eqb_sym, Hx, (IH Hp). reflexivity.
Qed.

Lemma split_join c (l : list pystr) :
  l <> [] -> Forall (fun f => contains c f = false) l ->
  split_on c (join [c] l) = l.
Proof.
  induction l as [|p l IH]; [congruence|]. intros _ Hall.
  inversion Hall as [|? ? Hp Hl]; subst.
  destruct l as [|p' l]; cbn [join].
  - now apply split_on_none.
  - cbn [app]. rewrite split_on_sep by exact Hp. f_equal.
    apply IH; [discriminate | exact Hl].
Qed.

(** Every field of the encoded query is a quoted key, [=], a quoted value. *)
Lemma urlencode_fields_shape (P : pystr -> Prop) (d : pydict) (l : list pystr) :
  urlencode_fields L d = Return l ->
  (forall k v k' v', In (k, v) d -> UrlEncode.quote k = Return k' ->
                     UrlEncode.quote (py_str L v) = Return v' ->
                     P (k' ++ lit "=" ++ v')) ->
  Forall P l.
Proof.
  revert l. induction d as [|[k v] d IH]; intros l; cbn [urlencode_fields].
  - intros [= <-] _. constructor.
  - destruct (UrlEncode.quote k) as [k'|] eqn:Ek; [|discriminate].
    destruct (UrlEncode.quote (py_str L v)) as [v'|] eqn:Ev; [|discriminate].
    destruct (urlencode_fields L d) as [l'|]; [|discriminate].
    cbn [bind]. intros [= <-] HP. constructor.
    + apply (HP k v); [now left | exact Ek | exact Ev].
    + apply IH; [reflexivity|]. intros k0 v0 k0' v0' Hin. apply HP. now right.
Qed.

Lemma public_token_data_keys (args : Args.t) code code_verifier k v :
  public_client args = true ->
  In (k, v) (step_token_data args code code_verifier) ->
  In k token_form_keys.
Proof.
  intros Hp. unfold step_token_data. rewrite Hp.
  destruct (truthy_obj code_verifier); vm_compute; intros H;
    repeat (destruct H as [[= <- _]|H]; [tauto|]); destruct H.
Qed.

Lemma encoded_body_fields (d : pydict) (body : pystr) (P : pystr -> Prop) :
  _encode_query L d = Return body ->
  P [] ->
  (forall k v k' v', In (k, v) d -> UrlEncode.quote k = Return k' ->
                     UrlEncode.quote (py_str L v) = Return v' ->
                     P (k' ++ lit "=" ++ v')) ->
  Forall P (split_on (chr "&") body).
Proof.
  unfold _encode_query. intros H Hnil HP.
  destruct (urlencode_fields L (safe_params d)) as [l|] eqn:El; [|discriminate].
  cbn [bind] in H. injection H as <-.
  assert (Hsub : forall k v, In (k, v) (safe_params d) -> In (k, v) d).
  { intros k v Hin. unfold safe_params in Hin. now apply filter_In in Hin. }
  destruct l as [|f l]; [repeat constructor; exact Hnil|].
  change (lit "&") with [chr "&"]. rewrite split_join; [|discriminate|].
  - apply (urlencode_fields_shape _ _ _ El). intros k v k' v' Hin. apply HP.
    now apply Hsub.
  - apply (urlencode_fields_shape _ _ _ El). intros k v k' v' _ Ek Ev.
    change (chr "&") with 38.
    rewrite !contains_app, (quote_amp _ _ Ek), (quote_amp _ _ Ev). reflexivity.
Qed.

Lemma public_token_body_has_no_secret (args : Args.t) code code_verifier body :
  public_client args = true ->
  _encode_query L (step_token_data args code code_verifier) = Return body ->
  Forall (fun field => starts_with (lit "client_secret=") field = false)
         (split_on (chr "&") body).
Proof.
  intros Hp Hbody. apply (encoded_body_fields _ _ _ Hbody); [reflexivity|].
  intros k v k' v' Hin Ek _.
  apply (public_token_data_keys _ _ _ _ _ Hp) in Hin.
  unfold token_form_keys in Hin. cbn [map In] in Hin.
  repeat (destruct Hin as [<-|Hin];
          [vm_compute in Ek; injection Ek as <-; reflexivity|]).
  destruct Hin.
Qed.
Lemma always_safe_bounds c :
  UrlEncode.always_safe c = true ->
  c < 128 /\ c <> 37 /\ c <> 38 /\ c <> 43 /\ c <> 61.
Proof.
  unfold UrlEncode.always_safe.
  rewrite !orb_true_iff, !andb_true_iff, !N.leb_le, !N.eqb_eq. lia.
Qed.

Lemma upper_hex_ascii n : UrlEncode.upper_hex n < 128.
Proof.
  unfold UrlEncode.upper_hex. generalize (N.to_nat n). intros m.
  do 16 (destruct m as [|m]; [vm_compute; reflexivity|]).
  cbn. destruct m; reflexivity.
Qed.

Lemma quote_ascii (s q : pystr) : UrlEncode.quote s = Return q -> isascii q = true.
Proof.
  unfold UrlEncode.quote. destruct (UrlEncode.utf8_encode s) as [bs|]; [|discriminate].
  intros [= <-]. unfold UrlEncode.quote_from_bytes, isascii.
  induction bs as [|b bs IH]; [reflexivity|].
  cbn [flat_map]. rewrite forallb_app, IH, andb_true_r.
  destruct (UrlEncode.always_safe b) eqn:E; cbn [forallb].
  - apply always_safe_bounds in E. rewrite andb_true_r. apply N.ltb_lt. lia.
  - pose proof (upper_hex_ascii (b / 16)). pose proof (upper_hex_ascii (b mod 16)).
    rewrite !andb_true_iff, !N.ltb_lt. repeat split; lia.
Qed.

Lemma forallb_join (p : N -> bool) (l : list pystr) :
  p 38 = true -> Forall (fun f => forallb p f = true) l ->
  forallb p (join (lit "&") l) = true.
Proof.
  intros Hp. induction 1 as [|f l Hf Hl IH]; [reflexivity|].
  destruct l as [|f' l]; [exact Hf|].
  change (join (lit "&") (f :: f' :: l))
    with (f ++ lit "&" ++ join (lit "&") (f' :: l)).
  rewrite !forallb_app, Hf, IH. change (lit "&") with [38].
  cbn [forallb]. now rewrite Hp.
Qed.

Lemma encode_query_ascii (d : pydict) (body : pystr) :
  _encode_query L d = Return body -> isascii body = true.
Proof.
  unfold _encode_query.
  destruct (urlencode_fields L (safe_params d)) as [l|] eqn:E; [|discriminate].
  intros [= <-].
  assert (H : Forall (fun f => forallb (fun c => c <? 128) f = true) l).
  { apply (urlencode_fields_shape _ _ _ E). intros k v k' v' _ Ek Ev.
    rewrite !forallb_app.
    pose proof (quote_ascii _ _ Ek) as Hk. pose proof (quote_ascii _ _ Ev) as Hv.
    unfold isascii in Hk, Hv. now rewrite Hk, Hv. }
  unfold isascii. now apply forallb_join.
Qed.

(** ASCII text is its own UTF-8 encoding. *)
Lemma utf8_encode_ascii (q : pystr) :
  isascii q = true -> UrlEncode.utf8_encode q = Return q.
Proof.
  intros Hq. unfold UrlEncode.utf8_encode.
  assert (H : existsb UrlEncode.surrogate q = false /\ flat_map UrlEncode.utf8_char q = q).
  { unfold isascii in Hq. induction q as [|c q IH]; [now split|].
    cbn [forallb] in Hq. apply andb_prop in Hq as [Hc Hq].
    destruct (IH Hq) as [IH1 IH2]. cbn [existsb flat_map]. rewrite IH1, IH2.
    unfold UrlEncode.utf8_char. rewrite Hc. apply N.ltb_lt in Hc. split; [|reflexivity].
    rewrite orb_false_r. unfold UrlEncode.surrogate.
    apply andb_false_iff. left. apply N.leb_gt. lia. }
  destruct H as [-> ->]. reflexivity.
Qed.

Lemma Request_init_data (url : pystr) (data : option (list N))
    (headers : list (pystr * pystr)) (method : pystr) (req : Request) :
  truthy method = true ->
  Request_init L url data headers (Some method) = Return req ->
  req_data req = data /\ req_method req = method.
Proof.
  intros Hm. unfold Request_init.
  destruct (_splittag (unwrap url)) as [full fragment].
  destruct (fst (_splittype full)); [|discriminate].
  destruct (Url.urlparse L _); [|discriminate].
  cbn [bind truthy_opt]. rewrite Hm. intros [= <-]. now split.
Qed.
End FormBody.

(** ** The requests of a step *)

Section Requests.
Variable L : Lib.
Context {W : Type}.
Variable X : World W.
Variable P : Request -> Prop.

Lemma sends_ret {A} (a : A) : sends (W := W) P (ret a).
Proof. intros s. exists []. now rewrite app_nil_r. Qed.

Lemma sends_raise {A} e : sends (W := W) (A := A) P (raise e).
Proof. intros s. exists []. now rewrite app_nil_r. Qed.

Lemma sends_pass {A} b : sends (W := W) (A := A) P (pass b).
Proof. intros s. exists []. now rewrite app_nil_r. Qed.

Lemma sends_lift {A} (r : result A) : sends (W := W) P (lift r).
Proof. intros s. exists []. now rewrite app_nil_r. Qed.

Lemma sends_ctx_get key : sends (W := W) P (ctx_get key).
Proof. intros s. exists []. now rewrite app_nil_r. Qed.

Lemma sends_ctx_has key : sends (W := W) P (ctx_has key).
Proof. intros s. exists []. now rewrite app_nil_r. Qed.

Lemma sends_ctx_set key v : sends (W := W) P (ctx_set key v).
Proof. intros s. exists []. now rewrite app_nil_r. Qed.

Lemma sends_and_then {A B} (m : step A) (f : A -> step B) :
  sends (W := W) P m -> (forall a, sends P (f a)) -> sends P (and_then m f).
Proof.
  intros Hm Hf s. unfold and_then.
  destruct (Hm s) as (new & E & Hnew). destruct (m s) as [[a|e|b] s'].
  - destruct (Hf a s') as (new' & E' & Hnew'). cbn [snd] in E.
    exists (new ++ new'). split.
    + now rewrite E', E, app_assoc.
    + now apply Forall_app.
  - now exists new.
  - now exists new.
Qed.

Lemma sends_execute (req : Request) (timeout : Z) :
  P req -> sends P (_execute (logged X) req timeout).
Proof.
  intros Hreq s. exists [req]. unfold _execute, and_then, world_call.
  cbn [urlopen logged].
  destruct (urlopen X req timeout (fst (world s))) as [[r|code body|e] w'];
    (split; [reflexivity | now constructor]).
Qed.

(** A form is posted as the request [Request(url, data=encoded,
    headers=..., method="POST")], [encoded] being the encoded query. *)
Lemma sends_post_form (url : pystr) (data : pydict) (timeout : Z) :
  (forall query req,
     _encode_query L data = Return query ->
     Request_init L url (Some query)
       [(lit "Content-Type", lit "application/x-www-form-urlencoded")]
       (Some (lit "POST")) = Return req ->
     P req) ->
  sends P (_post_form L (logged X) url data timeout).
Proof.
  intros HP s. unfold _post_form, and_then, lift.
  destruct (_encode_query L data) as [q|e] eqn:E;
    [|exists []; now rewrite app_nil_r].
  rewrite (utf8_encode_ascii q (encode_query_ascii L _ _ E)). cbv beta iota.
  destruct (Request_init _ _ _ _ _) as [req|e] eqn:Er;
    [|exists []; now rewrite app_nil_r].
  apply (sends_execute req timeout (HP q req eq_refl Er) s).
Qed.
End Requests.

Section TokenRequest.
Variable L : Lib.
Context {W : Type}.
Variable X : World W.
Variable args : Args.t.

(** Every request of the token step of a public client is free of the
    secret. *)
Lemma step_token_sends :
  public_client args = true ->
  sends secret_free (step_token L (logged X) args).
Proof.
  intros Hpublic. unfold step_token. cbv zeta.
  apply sends_and_then; [apply sends_ctx_get|]. intros code.
  destruct (negb (truthy_obj code)); [apply sends_raise|].
  apply sends_and_then; [apply sends_ctx_get|]. intros code_verifier.
  destruct (use_pkce args && negb (truthy_obj code_verifier));
    [apply sends_raise|].
  apply sends_and_then.
  - apply sends_post_form. intros query req Hquery Hreq.
    apply Request_init_data in Hreq as [Hdata _]; [|reflexivity].
    unfold secret_free. rewrite Hdata.
    exact (public_token_body_has_no_secret L args _ _ query Hpublic Hquery).
  - intros response.
    repeat first
      [ apply sends_ret | apply sends_lift | apply sends_ctx_set
      | apply sends_and_then; [| intros ?] ].
Qed.

(** A token step that gets past its two guards posts one request: the
    encoded form data, to the token endpoint. *)
Lemma step_token_request (s : @Session (W * list Request))
    (query : pystr) (req : Request) :
  truthy_obj (context s !! lit "authorization_code") = true ->
  use_pkce args && negb (truthy_obj (context s !! lit "code_verifier")) = false ->
  _encode_query L
    (step_token_data args (default JNull (context s !! lit "authorization_code"))
                     (context s !! lit "code_verifier")) = Return query ->
  Request_init L (token_url args) (Some query)
    [(lit "Content-Type", lit "application/x-www-form-urlencoded")]
    (Some (lit "POST")) = Return req ->
  snd (world (snd (step_token L (logged X) args s))) = snd (world s) ++ [req].
Proof.
  intros Hcode Hguard Hquery Hreq.
  unfold step_token, and_then, ctx_get. rewrite Hcode. cbn [negb].
  rewrite Hguard. cbv zeta.
  unfold _post_form, and_then, lift. rewrite Hquery.
  rewrite (utf8_encode_ascii query (encode_query_ascii L _ _ Hquery)).
  cbv beta iota.
  destruct (Request_init _ _ _ _ _) as [req'|e'];
    [injection Hreq as -> | discriminate Hreq].
  unfold _execute, and_then, world_call, ret, raise, ctx_set.
  cbn [urlopen logged world context].
  destruct (urlopen X req (Args.timeout args) (fst (world s)))
    as [[r|code body|e] w']; cbn [fst snd world context]; try reflexivity.
  destruct (json_loads L (payload r)) as [parsed|];
    cbn [fst snd world context]; [|reflexivity].
  destruct (obj_get parsed (lit "expires_in") _);
    cbn [fst snd world context]; [|reflexivity].
  destruct (obj_get parsed (lit "access_token") _) as [token|];
    cbn [fst snd world context]; [|reflexivity].
  destruct (py_len token); reflexivity.
Qed.
End TokenRequest.

(** C1. When the client is public (the flag is true, or it is unset and no
    client secret is configured), whatever secret is loaded and whatever
    the network answers: no request the token step of the report makes
    carries a form field named [client_secret]; a token step that gets
    past its guards posts exactly one request, whose body is the encoding
    of the form data the step builds, and that form data has no
    [client_secret] key; and with the flag unset [_resolve_public_client]
    is true exactly when no secret is present. *)
Theorem public_client_sends_no_secret (L : Lib) {W : Type} (X : World W)
    (args : Args.t) :
  Args.public_client args = Some true
  \/ (Args.public_client args = None
      /\ truthy_opt (Args.client_secret args) = false) ->
  sends secret_free (step_token L (logged X) args)
  /\ (forall (s : @Session (W * list Request)) (query : pystr) (req : Request),
        let code := context s !! lit "authorization_code" in
        let code_verifier := context s !! lit "code_verifier" in
        let data := step_token_data args (default JNull code) code_verifier in
        truthy_obj code = true ->
        use_pkce args && negb (truthy_obj code_verifier) = false ->
        _encode_query L data = Return query ->
        Request_init L (token_url args) (Some query)
          [(lit "Content-Type", lit "application/x-www-form-urlencoded")]
          (Some (lit "POST")) = Return req ->
        snd (world (snd (step_token L (logged X) args s)))
          = snd (world s) ++ [req]
        /\ req_data req = Some query
        /\ req_method req = lit "POST"
        /\ secret_free req)
  /\ (forall (code : json) (code_verifier : option json),
        dict_mem (lit "client_secret") (step_token_data args code code_verifier)
          = false
        /\ dict_get (step_token_data args code code_verifier)
                    (lit "client_secret") = None)
  /\ forall secret : option pystr,
       _resolve_public_client None secret = true <-> truthy_opt secret = false.
Proof.
  intros Hpublic.
  assert (Hp : public_client args = true).
  { unfold public_client, _resolve_public_client.
    destruct Hpublic as [-> | [-> ->]]; reflexivity. }
  split; [|split; [|split]].
  - now apply step_token_sends.
  - cbv zeta. intros s query req Hcode Hguard Hquery Hreq.
    split; [exact (step_token_request L X args s query req Hcode Hguard Hquery Hreq)|].
    destruct (Request_init_data L _ _ _ (lit "POST") _ eq_refl Hreq)
      as [Hdata Hmethod].
    split; [exact Hdata|]. split; [exact Hmethod|].
    unfold secret_free. rewrite Hdata.
    exact (public_token_body_has_no_secret L args _ _ query Hp Hquery).
  - intros code code_verifier. unfold step_token_data. rewrite Hp.
    destruct (truthy_obj code_verifier); vm_compute; split; reflexivity.
  - intros secret. unfold _resolve_public_client.
    destruct (truthy_opt secret); split; intros H; try reflexivity; discriminate.
Qed.

Lemma public_client_sends_no_secret_witness :
  let args :=
    Stub.with_public_client true
      (Stub.make_args (Some (lit "https://example.com/cb?code=abc123"))
                      (Some (lit "verifier")) (Some (lit "secret")) None) in
  let s : @Session (list Request * list Request) :=
    {| context :=
         <[lit "authorization_code" := JStr (lit "abc123")]>
           (<[lit "code_verifier" := JStr (lit "verifier")]> ∅);
       world := ([], []) |} in
  let query :=
    lit "client_id=client&grant_type=authorization_code&code=abc123&redirect_uri=https%3A%2F%2Fexample.com%2Fcb&scope=openid%20offline_access&code_verifier=verifier" in
  let req :=
    {| req_url := lit "https://login.microsoftonline.com/tenant/oauth2/v2.0/token";
       req_data := Some query;
       req_headers := [(lit "Content-type",
                        lit "application/x-www-form-urlencoded")];
       req_method := lit "POST" |} in
  (Args.public_client args = Some true
   \/ (Args.public_client args = None
       /\ truthy_opt (Args.client_secret args) = false))
  /\ sends secret_free (step_token Stub.lib (logged Stub.world) args)
  /\ (snd (world (snd (step_token Stub.lib (logged Stub.world) args s)))
        = snd (world s) ++ [req]
      /\ req_data req = Some query
      /\ req_method req = lit "POST"
      /\ secret_free req)
  /\ (forall (code : json) (code_verifier : option json),
        dict_mem (lit "client_secret") (step_token_data args code code_verifier)
          = false
        /\ dict_get (step_token_data args code code_verifier)
                    (lit "client_secret") = None).
Proof.
  cbv zeta. split; [left; reflexivity|].
  destruct (public_client_sends_no_secret Stub.lib Stub.world
              (Stub.with_public_client true
                 (Stub.make_args (Some (lit "https://example.com/cb?code=abc123"))
                                 (Some (lit "verifier")) (Some (lit "secret")) None))
              (or_introl eq_refl)) as (H1 & H2 & H3 & _).
  split; [exact H1|]. split; [|exact H3].
  apply H2; vm_compute; reflexivity.
Defined.
